(** * The COVID-19 expert system of [covid_expert_ui.py]

    A shallow embedding of the rule engine [SimpleCovidExpert] and of the
    callbacks of [CovidExpertUI] that call into it, followed by the
    properties the specification states about them.

    The program is dynamically typed: rules and conclusions are dicts with
    string keys, condition lists are lists of strings and the fact set is a
    set of strings.  The embedding keeps that shape.  Dicts are finite maps
    from strings to values, every subscript [d[k]] is a lookup that can raise
    [KeyError], and every operation that Python rejects on a value of the
    wrong kind raises [TypeError].  That the program never raises on its own
    rule table is then a theorem and not a consequence of the typing. *)

From stdpp Require Import base strings gmap sets list.

Set Warnings "-register-all,-clear-no-such-hyp".

Open Scope string_scope.

(** ** The fragment of Python the program uses *)

Module Py.

(** Values that occur in the rule table: strings, lists and dicts keyed by
    strings. *)
Inductive value : Type :=
| VStr (s : string)
| VList (l : list value)
| VDict (d : gmap string value).

Inductive exn : Type :=
| KeyError (k : string)
| TypeError.

Inductive result (A : Type) : Type :=
| Ok (a : A)
| Raise (e : exn).

Arguments Ok {A} a.
Arguments Raise {A} e.

#[global] Instance result_ret : MRet result := @Ok.

#[global] Instance result_bind : MBind result :=
  λ A B f m, match m with Ok a => f a | Raise e => Raise e end.

(** [v[k]] for a string key [k].  A missing key raises [KeyError]; a string
    or a list subscripted by a string raises [TypeError]. *)
Definition getitem (v : value) (k : string) : result value :=
  match v with
  | VDict d =>
      match d !! k with
      | Some x => Ok x
      | None => Raise (KeyError k)
      end
  | VStr _ | VList _ => Raise TypeError
  end.

(** The one-character strings of a string, left to right.  Strings are
    sequences of bytes here; the string literals of the program are ASCII. *)
Fixpoint chars (s : string) : list value :=
  match s with
  | EmptyString => []
  | String a rest => VStr (String a EmptyString) :: chars rest
  end.

(** The items [for x in v] visits.  A list yields its elements, a string its
    characters and a dict its keys.  The finite map does not record the
    insertion order of a dict, so the keys come in the order of
    [map_to_list]; the program iterates over lists only. *)
Definition iter (v : value) : list value :=
  match v with
  | VList l => l
  | VStr s => chars s
  | VDict d => VStr <$> (map_to_list d).*1
  end.

(** [x in facts] for a set of strings: a string is looked up, a list or a
    dict is unhashable and raises [TypeError]. *)
Definition contains (facts : gset string) (x : value) : result bool :=
  match x with
  | VStr s => Ok (bool_decide (s ∈ facts))
  | VList _ | VDict _ => Raise TypeError
  end.

(** [all(cond in facts for cond in conds)]: the generator is consumed from
    the left and [all] stops at the first false item. *)
Fixpoint all_in (facts : gset string) (conds : list value) : result bool :=
  match conds with
  | [] => Ok true
  | cond :: rest =>
      b ← contains facts cond;
      if b : bool then all_in facts rest else Ok false
  end.

(** Truth value of an object in [if v:]. *)
Definition truthy (v : value) : bool :=
  match v with
  | VStr s => negb (String.eqb s "")
  | VList l => negb (Nat.eqb (length l) 0)
  | VDict d => negb (Nat.eqb (size d) 0)
  end.

(** [v == s] for a string literal [s]. *)
Definition eq_str (v : value) (s : string) : bool :=
  match v with
  | VStr t => String.eqb t s
  | VList _ | VDict _ => false
  end.

(** [v in (s1, ..., sn)] for a tuple of string literals. *)
Definition in_tuple (v : value) (t : list string) : bool :=
  existsb (eq_str v) t.

(** [sep.join(items)]: every item must be a string. *)
Fixpoint join_items (sep : string) (items : list value) : result string :=
  match items with
  | [] => Ok ""
  | VStr s :: rest =>
      match rest with
      | [] => Ok s
      | _ :: _ => t ← join_items sep rest; Ok (s +:+ sep +:+ t)
      end
  | (VList _ | VDict _) :: _ => Raise TypeError
  end.

Definition join (sep : string) (v : value) : result string :=
  join_items sep (iter v).

(** The line feed of ["\n"]. *)
Definition nl : string := String (Ascii.ascii_of_nat 10) EmptyString.

End Py.

Import Py.

(** ** The rule engine *)

Module SimpleCovidExpert.

(** The attributes [__init__] sets on the object. *)
Record t : Type := {
  rules : list value;
  default : value
}.

(** The two dict literals of the list [self.rules], in the order in which
    [__init__] writes them. *)
Definition rule_1 : value :=
  VDict {[
    "name" := VStr "Rule 1: Fever + Loss of Taste/Smell";
    "conditions" := VList [VStr "fever"; VStr "loss_taste_smell"];
    "conclusion" := VDict {[
      "label" := VStr "Likely COVID-19";
      "confidence" := VStr "High";
      "advice" := VStr "Seek medical advice and isolate. Consider getting a PCR test."
    ]}
  ]}.

Definition rule_2 : value :=
  VDict {[
    "name" := VStr "Rule 2: Fever + Cough";
    "conditions" := VList [VStr "fever"; VStr "cough"];
    "conclusion" := VDict {[
      "label" := VStr "Possible COVID-19";
      "confidence" := VStr "Medium";
      "advice" := VStr "Self-isolate, monitor symptoms and consider testing."
    ]}
  ]}.

Definition __init__ : t := {|
  rules := [rule_1; rule_2];
  default := VDict {[
    "label" := VStr "Low likelihood of COVID-19";
    "confidence" := VStr "Low";
    "advice" := VStr "Could be normal flu. Monitor your condition and seek help if symptoms worsen."
  ]}
|}.

(** The condition of the [if] in the loop of [evaluate]. *)
Definition rule_fires (rule : value) (facts : gset string) : result bool :=
  conditions ← getitem rule "conditions";
  all_in facts (iter conditions).

(** The [for] loop of [evaluate] over the rules that remain, and the
    [return None, self.default] after it. *)
Fixpoint evaluate_loop (remaining : list value) (dflt : value)
    (facts : gset string) : result (option value * value) :=
  match remaining with
  | [] => Ok (None, dflt)
  | rule :: rest =>
      fires ← rule_fires rule facts;
      if fires : bool
      then conclusion ← getitem rule "conclusion"; Ok (Some rule, conclusion)
      else evaluate_loop rest dflt facts
  end.

Definition evaluate (self : t) (facts : gset string)
    : result (option value * value) :=
  evaluate_loop (rules self) (default self) facts.

End SimpleCovidExpert.

(** ** The callbacks of the form *)

Module CovidExpertUI.

(** A [tk.Text] widget: the chunks inserted so far and its [state] option.
    While the state is [DISABLED] the widget ignores [insert] and
    [delete]. *)
Inductive widget_state : Type := NORMAL | DISABLED.

Record text : Type := {
  content : list value;
  state : widget_state
}.

Definition config (w : text) (s : widget_state) : text :=
  {| content := content w; state := s |}.

(** [w.delete("1.0", tk.END)] *)
Definition delete (w : text) : text :=
  match state w with
  | NORMAL => {| content := []; state := NORMAL |}
  | DISABLED => w
  end.

(** [w.insert(tk.END, chars)] *)
Definition insert (w : text) (chars : value) : text :=
  match state w with
  | NORMAL => {| content := content w ++ [chars]; state := NORMAL |}
  | DISABLED => w
  end.

(** What the user gets to see besides the form itself: the modal box of
    [messagebox.showinfo]. *)
Inductive event : Type :=
| showinfo (title message : string).

(** The window [show_rules] opens. *)
Record toplevel : Type := {
  title : string;
  heading : string;
  txt : text
}.

(** The attributes of the form the callbacks read or write.  A [StringVar]
    holds whatever value was [set] last, a [BooleanVar] a boolean. *)
Record t : Type := {
  engine : SimpleCovidExpert.t;
  symptoms_vars : gmap string bool;
  result_var : value;
  confidence_var : value;
  advice_text : text;
  explain_var : value
}.

Definition set_symptoms_vars (self : t) (m : gmap string bool) : t :=
  {| engine := engine self; symptoms_vars := m; result_var := result_var self;
     confidence_var := confidence_var self; advice_text := advice_text self;
     explain_var := explain_var self |}.

Definition set_result_var (self : t) (v : value) : t :=
  {| engine := engine self; symptoms_vars := symptoms_vars self; result_var := v;
     confidence_var := confidence_var self; advice_text := advice_text self;
     explain_var := explain_var self |}.

Definition set_confidence_var (self : t) (v : value) : t :=
  {| engine := engine self; symptoms_vars := symptoms_vars self;
     result_var := result_var self; confidence_var := v;
     advice_text := advice_text self; explain_var := explain_var self |}.

Definition set_advice_text (self : t) (w : text) : t :=
  {| engine := engine self; symptoms_vars := symptoms_vars self;
     result_var := result_var self; confidence_var := confidence_var self;
     advice_text := w; explain_var := explain_var self |}.

Definition set_explain_var (self : t) (v : value) : t :=
  {| engine := engine self; symptoms_vars := symptoms_vars self;
     result_var := result_var self; confidence_var := confidence_var self;
     advice_text := advice_text self; explain_var := v |}.

(** The part of [__init__] that sets these attributes: a fresh engine, six
    unchecked boxes and the initial texts. *)
Definition __init__ : t := {|
  engine := SimpleCovidExpert.__init__;
  symptoms_vars := {[
    "fever" := false;
    "cough" := false;
    "sore_throat" := false;
    "shortness_breath" := false;
    "loss_taste_smell" := false;
    "recent_exposure" := false
  ]};
  result_var := VStr "No diagnosis yet.";
  confidence_var := VStr "-";
  advice_text := {| content := []; state := DISABLED |};
  explain_var := VStr "No rule fired yet."
|}.

(** [{k for k, v in self.symptoms_vars.items() if v.get()}] *)
Definition checked (vars : gmap string bool) : gset string :=
  dom (filter (λ kv, kv.2 = true) vars).

Section Callbacks.

(** A replacement field of an f-string renders a string as it is.  The text
    Python gives a list or a dict there (its [repr]) is left open. *)
Variable container_repr : value → string.

Definition format (v : value) : string :=
  match v with
  | VStr s => s
  | VList _ | VDict _ => container_repr v
  end.

(** The text for the "Rule Fired" line: [if rule:] with [rule] either
    [None] or the dict of the rule that fired. *)
Definition rule_fired (rule : option value) : result value :=
  match rule with
  | Some r =>
      if truthy r
      then name ← getitem r "name"; Ok (VStr ("Fired: " +:+ format name))
      else Ok (VStr "Default rule applied.")
  | None => Ok (VStr "Default rule applied.")
  end.

(** The test of the last [if] of [run_diagnosis], [and] evaluating its
    right operand only when the left one holds. *)
Definition exposure_notice (facts : gset string) (conclusion : value)
    : result bool :=
  if bool_decide ("recent_exposure" ∈ facts)
  then confidence ← getitem conclusion "confidence";
       Ok (in_tuple confidence ["High"; "Medium"])
  else Ok false.

(** An exception leaves the callback at once; the model then keeps the
    exception and not the form as it was left. *)
Definition run_diagnosis (self : t) : result (t * list event) :=
  let facts := checked (symptoms_vars self) in
  '(rule, conclusion) ← SimpleCovidExpert.evaluate (engine self) facts;
  label ← getitem conclusion "label";
  let self := set_result_var self label in
  confidence ← getitem conclusion "confidence";
  let self := set_confidence_var self confidence in
  let self := set_advice_text self (config (advice_text self) NORMAL) in
  let self := set_advice_text self (delete (advice_text self)) in
  advice ← getitem conclusion "advice";
  let self := set_advice_text self (insert (advice_text self) advice) in
  let self := set_advice_text self (config (advice_text self) DISABLED) in
  explanation ← rule_fired rule;
  let self := set_explain_var self explanation in
  notice ← exposure_notice facts conclusion;
  Ok (self,
      if notice : bool
      then [showinfo "Important"
              "You have recent exposure. Please isolate and get tested."]
      else []).

Definition reset (self : t) : t :=
  let self := set_symptoms_vars self ((λ _, false) <$> symptoms_vars self) in
  let self := set_result_var self (VStr "No diagnosis yet.") in
  let self := set_confidence_var self (VStr "-") in
  let self := set_explain_var self (VStr "No rule fired yet.") in
  let self := set_advice_text self (config (advice_text self) NORMAL) in
  let self := set_advice_text self (delete (advice_text self)) in
  set_advice_text self (config (advice_text self) DISABLED).

(** The three [insert] calls of one round of the loop of [show_rules]. *)
Definition show_rule (w : text) (r : value) : result text :=
  name ← getitem r "name";
  let w := insert w (VStr (format name +:+ ":" +:+ nl)) in
  conditions ← getitem r "conditions";
  joined ← join " AND " conditions;
  let w := insert w (VStr ("  IF " +:+ joined +:+ nl)) in
  conclusion ← getitem r "conclusion";
  label ← getitem conclusion "label";
  conclusion ← getitem r "conclusion";
  confidence ← getitem conclusion "confidence";
  Ok (insert w (VStr ("  THEN " +:+ format label +:+ " (" +:+ format confidence
                        +:+ ")" +:+ nl +:+ nl))).

Fixpoint show_rules_loop (w : text) (remaining : list value) : result text :=
  match remaining with
  | [] => Ok w
  | r :: rest => w ← show_rule w r; show_rules_loop w rest
  end.

(** [show_rules] reads the form and changes none of its attributes: its
    whole effect is the window it opens. *)
Definition show_rules (self : t) : result toplevel :=
  let w := {| content := []; state := NORMAL |} in
  w ← show_rules_loop w (SimpleCovidExpert.rules (engine self));
  label ← getitem (SimpleCovidExpert.default (engine self)) "label";
  confidence ← getitem (SimpleCovidExpert.default (engine self)) "confidence";
  let w := insert w (VStr ("Default rule: " +:+ format label +:+ " ("
                             +:+ format confidence +:+ ")")) in
  Ok {| title := "Rules"; heading := "Expert System Rules";
        txt := config w DISABLED |}.

End Callbacks.

End CovidExpertUI.

(** ** The event loop

    [main] builds the form and hands control to Tk, which runs one callback
    per user action: a click on a check box flips its [BooleanVar], and the
    three buttons call [run_diagnosis], [reset] and [show_rules]. *)

Module MainLoop.

Import CovidExpertUI.

Section Steps.

Variable container_repr : value → string.

Inductive step : CovidExpertUI.t → CovidExpertUI.t → Prop :=
| step_toggle ui key b :
    symptoms_vars ui !! key = Some b →
    step ui (set_symptoms_vars ui (<[key := negb b]> (symptoms_vars ui)))
| step_diagnose ui ui' events :
    run_diagnosis container_repr ui = Ok (ui', events) →
    step ui ui'
| step_reset ui :
    step ui (reset ui)
| step_show_rules ui window :
    show_rules container_repr ui = Ok window →
    step ui ui.

(** The forms the user can bring about, starting from the one [main]
    builds. *)
Inductive reachable : CovidExpertUI.t → Prop :=
| reachable_init : reachable CovidExpertUI.__init__
| reachable_step ui ui' : reachable ui → step ui ui' → reachable ui'.

End Steps.

End MainLoop.

(** ** The vocabulary of the specification *)

Module Spec.

Import SimpleCovidExpert.

Definition as_str (v : value) : option string :=
  match v with
  | VStr s => Some s
  | VList _ | VDict _ => None
  end.

Definition is_str (v : value) : bool :=
  match v with
  | VStr _ => true
  | VList _ | VDict _ => false
  end.

(** The condition set of a rule: the strings its ["conditions"] entry
    lists, without order or repetition. *)
Definition condition_set (rule : value) : gset string :=
  match getitem rule "conditions" with
  | Ok conditions => list_to_set (omap as_str (iter conditions))
  | Raise _ => ∅
  end.

(** A rule matches when its whole condition set is contained in the
    facts. *)
Definition matches (rule : value) (facts : gset string) : Prop :=
  condition_set rule ⊆ facts.

#[global] Instance matches_dec rule facts : Decision (matches rule facts) :=
  decide (condition_set rule ⊆ facts).

(** [rule] is the first rule of the store, at position [i], that matches
    [facts]. *)
Definition first_match (self : t) (facts : gset string) (i : nat)
    (rule : value) : Prop :=
  rules self !! i = Some rule ∧ matches rule facts ∧
  ∀ j earlier, j < i → rules self !! j = Some earlier → ¬ matches earlier facts.

(** A rule of the shape the engine expects: a dict whose ["conditions"] is
    a list of strings and which has a ["conclusion"]. *)
Definition well_formed_rule (rule : value) : bool :=
  match getitem rule "conditions", getitem rule "conclusion" with
  | Ok (VList conditions), Ok _ => forallb is_str conditions
  | _, _ => false
  end.

Definition well_formed_store (self : t) : bool :=
  forallb well_formed_rule (rules self).

Definition nonempty_conditions (rule : value) : bool :=
  match getitem rule "conditions" with
  | Ok (VList (_ :: _)) => true
  | _ => false
  end.

(** The invariant of the rule store: every rule is well formed and lists
    at least one condition, and the default conclusion is there. *)
Definition valid_rule (rule : value) : bool :=
  well_formed_rule rule && nonempty_conditions rule.

(** A conclusion with the three fields the form displays. *)
Definition valid_conclusion (c : value) : bool :=
  match getitem c "label", getitem c "confidence", getitem c "advice" with
  | Ok _, Ok _, Ok _ => true
  | _, _, _ => false
  end.

Definition valid_store (self : t) : bool :=
  forallb valid_rule (rules self) && valid_conclusion (default self).

(** The confidence of a conclusion is the string [level]. *)
Definition has_confidence (conclusion : value) (level : string) : Prop :=
  getitem conclusion "confidence" = Ok (VStr level).

(** What a rule of the store reads: its name, its condition set, and the
    label and confidence of its conclusion. *)
Definition rule_reads (rule : value) (name : string) (conditions : gset string)
    (label confidence : string) : Prop :=
  getitem rule "name" = Ok (VStr name) ∧
  condition_set rule = conditions ∧
  ∃ conclusion,
    getitem rule "conclusion" = Ok conclusion ∧
    getitem conclusion "label" = Ok (VStr label) ∧
    has_confidence conclusion confidence.

(** The notice of [run_diagnosis], and what a run of it shows. *)
Definition notice : CovidExpertUI.event :=
  CovidExpertUI.showinfo "Important"
    "You have recent exposure. Please isolate and get tested.".

Definition shows (out : result (CovidExpertUI.t * list CovidExpertUI.event))
    (events : list CovidExpertUI.event) : Prop :=
  ∃ ui', out = Ok (ui', events).

(** The keys of the six check boxes of the form. *)
Definition symptoms : gset string :=
  {[ "fever"; "cough"; "sore_throat"; "shortness_breath";
     "loss_taste_smell"; "recent_exposure" ]}.

(** What the right panel of the form displays: result, confidence, the
    chunks of the advice box and the "Rule Fired" line. *)
Definition display (ui : CovidExpertUI.t)
    : value * value * list value * value :=
  (CovidExpertUI.result_var ui, CovidExpertUI.confidence_var ui,
   CovidExpertUI.content (CovidExpertUI.advice_text ui),
   CovidExpertUI.explain_var ui).

(** The four displays the program can produce: the one of startup and of
    [reset], and one for each answer of the engine. *)
Definition display_startup : value * value * list value * value :=
  (VStr "No diagnosis yet.", VStr "-", [], VStr "No rule fired yet.").

Definition display_rule_1 : value * value * list value * value :=
  (VStr "Likely COVID-19", VStr "High",
   [VStr "Seek medical advice and isolate. Consider getting a PCR test."],
   VStr "Fired: Rule 1: Fever + Loss of Taste/Smell").

Definition display_rule_2 : value * value * list value * value :=
  (VStr "Possible COVID-19", VStr "Medium",
   [VStr "Self-isolate, monitor symptoms and consider testing."],
   VStr "Fired: Rule 2: Fever + Cough").

Definition display_default : value * value * list value * value :=
  (VStr "Low likelihood of COVID-19", VStr "Low",
   [VStr "Could be normal flu. Monitor your condition and seek help if symptoms worsen."],
   VStr "Default rule applied.").

(** One entry of the listing of [show_rules], with strings in every
    place. *)
Record entry : Type := {
  entry_name : string;
  entry_conditions : list string;
  entry_label : string;
  entry_confidence : string
}.

(** The rule [rule] holds the strings of the entry [e]. *)
Definition holds (rule : value) (e : entry) : Prop :=
  getitem rule "name" = Ok (VStr (entry_name e)) ∧
  getitem rule "conditions" = Ok (VList (VStr <$> entry_conditions e)) ∧
  ∃ conclusion,
    getitem rule "conclusion" = Ok conclusion ∧
    getitem conclusion "label" = Ok (VStr (entry_label e)) ∧
    getitem conclusion "confidence" = Ok (VStr (entry_confidence e)).

(** The three chunks of text that stand for an entry: its name, its
    conditions in their order, separated by " AND ", and its conclusion. *)
Definition lines (e : entry) : list value :=
  [ VStr (entry_name e +:+ ":" +:+ nl);
    VStr ("  IF " +:+ String.concat " AND " (entry_conditions e) +:+ nl);
    VStr ("  THEN " +:+ entry_label e +:+ " (" +:+ entry_confidence e +:+ ")"
            +:+ nl +:+ nl) ].

End Spec.

(** ** The engine on some inputs *)

Import SimpleCovidExpert Spec.

Example evaluate_no_facts : evaluate __init__ ∅ = Ok (None, default __init__).
Proof. reflexivity. Qed.

Example evaluate_fever_only :
  evaluate __init__ {[ "fever" ]} = Ok (None, default __init__).
Proof. vm_compute. reflexivity. Qed.

Example evaluate_every_symptom :
  let facts : gset string :=
    {[ "fever"; "cough"; "sore_throat"; "shortness_breath";
       "loss_taste_smell"; "recent_exposure" ]} in
  evaluate __init__ facts ≫= (λ '(rule, conclusion),
    name ← from_option (λ r, getitem r "name") (Raise TypeError) rule;
    label ← getitem conclusion "label";
    Ok (name, label))
  = Ok (VStr "Rule 1: Fever + Loss of Taste/Smell", VStr "Likely COVID-19").
Proof. vm_compute. reflexivity. Qed.

(** The exceptions are real on a rule table that is not the program's: a
    rule without conditions raises [KeyError]. *)
Example evaluate_missing_conditions :
  let store := {| rules := [VDict {[ "name" := VStr "r" ]}];
                  default := VStr "d" |} in
  evaluate store ∅ = Raise (KeyError "conditions").
Proof. vm_compute. reflexivity. Qed.

(** A condition that is a list raises [TypeError] once [all] gets to it, and
    only then: with no facts the first condition is already false and the
    next rule, whose condition list is empty, fires; with the first condition
    among the facts the evaluation raises.  So a larger fact set can turn an
    answer into an exception when the table is not well formed. *)
Example evaluate_unhashable_condition :
  let store := {|
    rules := [
      VDict {[ "conditions" := VList [VStr "a"; VList [VStr "b"]];
               "conclusion" := VStr "c1" ]};
      VDict {[ "conditions" := VList [];
               "conclusion" := VStr "c2" ]}
    ];
    default := VStr "d"
  |} in
  well_formed_store store = false ∧
  (∃ rule, evaluate store ∅ = Ok (Some rule, VStr "c2")) ∧
  evaluate store {[ "a" ]} = Raise TypeError.
Proof. split_and!; [reflexivity | by eexists | vm_compute; reflexivity]. Qed.

(** A condition list given as a string is read character by character. *)
Example evaluate_string_conditions :
  let store := {|
    rules := [VDict {[ "conditions" := VStr "ab"; "conclusion" := VStr "c" ]}];
    default := VStr "d"
  |} in
  (∃ rule, evaluate store {[ "a"; "b" ]} = Ok (Some rule, VStr "c")) ∧
  evaluate store {[ "ab" ]} = Ok (None, VStr "d").
Proof. split; [by eexists | vm_compute; reflexivity]. Qed.

(** ** Properties of the rule engine *)

Lemma bind_Ok {A B} (m : result A) (k : A → result B) (b : B) :
  m ≫= k = Ok b ↔ ∃ a, m = Ok a ∧ k a = Ok b.
Proof.
  destruct m as [a|e]; simpl.
  - split; [eauto | intros (a' & Ha & H); injection Ha as ->; exact H].
  - split; [discriminate | intros (a' & Ha & _); discriminate].
Qed.

Section Engine.

Variable facts : gset string.

Lemma all_in_strings (l : list value) :
  forallb is_str l = true →
  all_in facts l = Ok (bool_decide (list_to_set (omap as_str l) ⊆ facts)).
Proof.
  induction l as [|v l IH]; intros Hl.
  - simpl. rewrite bool_decide_eq_true_2; [reflexivity | set_solver].
  - apply andb_prop in Hl as [Hv Hl]. destruct v as [s| |]; try discriminate.
    cbn. destruct (decide (s ∈ facts)) as [Hin|Hout].
    + rewrite (bool_decide_eq_true_2 _ Hin), (IH Hl).
      f_equal. apply bool_decide_ext. set_solver.
    + rewrite (bool_decide_eq_false_2 _ Hout).
      rewrite bool_decide_eq_false_2; [reflexivity | set_solver].
Qed.

Lemma well_formed_rule_inv rule :
  well_formed_rule rule = true →
  ∃ conditions conclusion,
    getitem rule "conditions" = Ok (VList conditions) ∧
    forallb is_str conditions = true ∧
    getitem rule "conclusion" = Ok conclusion.
Proof.
  unfold well_formed_rule.
  destruct (getitem rule "conditions") as [[| conditions |]|]; try discriminate.
  destruct (getitem rule "conclusion") as [conclusion|]; try discriminate.
  eauto.
Qed.

Lemma rule_fires_well_formed rule :
  well_formed_rule rule = true →
  rule_fires rule facts = Ok (bool_decide (matches rule facts)).
Proof.
  intros (conditions & conclusion & Hc & Hs & _)%well_formed_rule_inv.
  unfold rule_fires. rewrite Hc. cbn. rewrite all_in_strings by done.
  f_equal. apply bool_decide_ext. unfold matches, condition_set. by rewrite Hc.
Qed.

Lemma evaluate_loop_no_match rs dflt :
  forallb well_formed_rule rs = true →
  (∀ rule, rule ∈ rs → ¬ matches rule facts) →
  evaluate_loop rs dflt facts = Ok (None, dflt).
Proof.
  induction rs as [|r rs IH]; intros Hwf Hno; [reflexivity|].
  apply andb_prop in Hwf as [Hr Hwf]. cbn.
  rewrite (rule_fires_well_formed _ Hr). cbn.
  rewrite bool_decide_eq_false_2 by (apply Hno; left).
  apply IH; [done|]. intros rule Hin. apply Hno. by right.
Qed.

Lemma evaluate_loop_first rs dflt i rule :
  forallb well_formed_rule rs = true →
  rs !! i = Some rule →
  matches rule facts →
  (∀ j earlier, j < i → rs !! j = Some earlier → ¬ matches earlier facts) →
  ∃ conclusion,
    getitem rule "conclusion" = Ok conclusion ∧
    evaluate_loop rs dflt facts = Ok (Some rule, conclusion).
Proof.
  revert i. induction rs as [|r rs IH]; intros i Hwf Hi Hm Hfirst; [done|].
  apply andb_prop in Hwf as [Hr Hwf]. cbn.
  rewrite (rule_fires_well_formed _ Hr). cbn.
  destruct i as [|i]; simplify_eq/=.
  - rewrite bool_decide_eq_true_2 by done.
    apply well_formed_rule_inv in Hr as (? & conclusion & _ & _ & ->).
    by exists conclusion.
  - rewrite bool_decide_eq_false_2 by (apply (Hfirst 0 r); [lia | done]).
    apply (IH i); try done.
    intros j earlier Hj. apply (Hfirst (S j)). lia.
Qed.

Lemma evaluate_loop_Some_inv rs dflt rule conclusion :
  forallb well_formed_rule rs = true →
  evaluate_loop rs dflt facts = Ok (Some rule, conclusion) →
  getitem rule "conclusion" = Ok conclusion ∧
  ∃ i, rs !! i = Some rule ∧ matches rule facts ∧
       ∀ j earlier, j < i → rs !! j = Some earlier → ¬ matches earlier facts.
Proof.
  induction rs as [|r rs IH]; intros Hwf Hev; [done|].
  apply andb_prop in Hwf as [Hr Hwf]. cbn in Hev.
  rewrite (rule_fires_well_formed _ Hr) in Hev. cbn in Hev.
  destruct (decide (matches r facts)) as [Hm|Hm].
  - rewrite bool_decide_eq_true_2 in Hev by done.
    apply bind_Ok in Hev as (c & Hc & [= <- <-]).
    split; [done|]. exists 0. split_and!; [done | done | intros; lia].
  - rewrite bool_decide_eq_false_2 in Hev by done.
    destruct (IH Hwf Hev) as (Hc & i & Hi & Hmi & Hfirst).
    split; [done|]. exists (S i). split_and!; [done | done |].
    intros [|j] earlier Hj Hlook; simplify_eq/=; [done|].
    apply (Hfirst j); [lia | done].
Qed.

Lemma evaluate_loop_None_inv rs dflt conclusion :
  forallb well_formed_rule rs = true →
  evaluate_loop rs dflt facts = Ok (None, conclusion) →
  conclusion = dflt ∧ ∀ rule, rule ∈ rs → ¬ matches rule facts.
Proof.
  induction rs as [|r rs IH]; intros Hwf Hev.
  - cbn in Hev. simplify_eq. split; [done|]. intros rule Hin. inversion Hin.
  - apply andb_prop in Hwf as [Hr Hwf]. cbn in Hev.
    rewrite (rule_fires_well_formed _ Hr) in Hev. cbn in Hev.
    destruct (decide (matches r facts)) as [Hm|Hm].
    + rewrite bool_decide_eq_true_2 in Hev by done.
      apply bind_Ok in Hev as (c & Hc & [=]).
    + rewrite bool_decide_eq_false_2 in Hev by done.
      destruct (IH Hwf Hev) as [-> Hno]. split; [done|].
      intros rule [->|Hin]%elem_of_cons; auto.
Qed.

(** On a well-formed store [evaluate] raises nothing. *)
Lemma evaluate_loop_total rs dflt :
  forallb well_formed_rule rs = true →
  ∃ rule conclusion, evaluate_loop rs dflt facts = Ok (rule, conclusion).
Proof.
  induction rs as [|r rs IH]; intros Hwf; [by eexists _, _|].
  apply andb_prop in Hwf as [Hr Hwf]. cbn.
  rewrite (rule_fires_well_formed _ Hr). cbn.
  destruct (bool_decide (matches r facts)); [|by apply IH].
  apply well_formed_rule_inv in Hr as (? & conclusion & _ & _ & ->).
  by eexists _, _.
Qed.

End Engine.

(** ** The rule table of [__init__] *)

Lemma init_well_formed : well_formed_store __init__ = true.
Proof. reflexivity. Qed.

Lemma init_valid : valid_store __init__ = true.
Proof. reflexivity. Qed.

Lemma matches_rule_1 (facts : gset string) :
  matches rule_1 facts ↔ "fever" ∈ facts ∧ "loss_taste_smell" ∈ facts.
Proof.
  unfold matches, condition_set.
  replace (getitem rule_1 "conditions")
    with (Ok (VList [VStr "fever"; VStr "loss_taste_smell"])) by reflexivity.
  cbn. set_solver.
Qed.

Lemma matches_rule_2 (facts : gset string) :
  matches rule_2 facts ↔ "fever" ∈ facts ∧ "cough" ∈ facts.
Proof.
  unfold matches, condition_set.
  replace (getitem rule_2 "conditions")
    with (Ok (VList [VStr "fever"; VStr "cough"])) by reflexivity.
  cbn. set_solver.
Qed.

Lemma rule_1_name :
  getitem rule_1 "name" = Ok (VStr "Rule 1: Fever + Loss of Taste/Smell").
Proof. reflexivity. Qed.

Lemma rule_2_name : getitem rule_2 "name" = Ok (VStr "Rule 2: Fever + Cough").
Proof. reflexivity. Qed.

Lemma rule_1_confidence conclusion :
  getitem rule_1 "conclusion" = Ok conclusion → has_confidence conclusion "High".
Proof.
  intros H.
  assert (getitem rule_1 "conclusion" ≫= (λ c, getitem c "confidence")
          = Ok (VStr "High")) as Hc by reflexivity.
  by rewrite H in Hc.
Qed.

Lemma rule_2_confidence conclusion :
  getitem rule_2 "conclusion" = Ok conclusion → has_confidence conclusion "Medium".
Proof.
  intros H.
  assert (getitem rule_2 "conclusion" ≫= (λ c, getitem c "confidence")
          = Ok (VStr "Medium")) as Hc by reflexivity.
  by rewrite H in Hc.
Qed.

Lemma default_confidence : has_confidence (default __init__) "Low".
Proof. reflexivity. Qed.

Lemma rule_1_neq_rule_2 : rule_1 ≠ rule_2.
Proof.
  intros H. pose proof rule_1_name as H1. rewrite H, rule_2_name in H1.
  discriminate H1.
Qed.

Lemma elem_of_init_rules rule :
  rule ∈ rules __init__ ↔ rule = rule_1 ∨ rule = rule_2.
Proof. cbn. rewrite !elem_of_cons, elem_of_nil. tauto. Qed.

(** ** What [evaluate] returns *)

Lemma Ok_Some_inj {A B} (a a' : A) (b b' : B) :
  Ok (Some a, b) = Ok (Some a', b') → a = a' ∧ b = b'.
Proof. intros H. by injection H. Qed.

(** On every well-formed store [evaluate] returns the first matching rule
    with its conclusion, and the default when no rule matches; and it
    returns nothing else. *)
Lemma evaluate_well_formed (self : SimpleCovidExpert.t) (facts : gset string) :
  well_formed_store self = true →
  (∀ i rule, first_match self facts i rule →
     ∃ conclusion, getitem rule "conclusion" = Ok conclusion ∧
                   evaluate self facts = Ok (Some rule, conclusion)) ∧
  ((∀ rule, rule ∈ rules self → ¬ matches rule facts) →
     evaluate self facts = Ok (None, default self)) ∧
  (∀ rule conclusion, evaluate self facts = Ok (Some rule, conclusion) →
     getitem rule "conclusion" = Ok conclusion ∧
     ∃ i, first_match self facts i rule) ∧
  (∀ conclusion, evaluate self facts = Ok (None, conclusion) →
     conclusion = default self ∧
     ∀ rule, rule ∈ rules self → ¬ matches rule facts).
Proof.
  intros Hwf. split_and!.
  - intros i rule (Hi & Hm & Hfirst). by apply (evaluate_loop_first facts _ _ i).
  - intros Hno. by apply evaluate_loop_no_match.
  - intros rule conclusion Hev. unfold evaluate in Hev.
    apply evaluate_loop_Some_inv in Hev as (Hc & i & Hfirst); [|done].
    split; [done|]. by exists i.
  - intros conclusion Hev. unfold evaluate in Hev.
    by apply evaluate_loop_None_inv in Hev.
Qed.

(** C1: for every fact set, [evaluate] on the rule table of [__init__]
    returns the first rule, in the order of the table, whose whole condition
    set is contained in the facts, paired with the conclusion of that rule;
    when no rule of the table has its condition set contained in the facts it
    returns [None] with the default conclusion of the table.  Conversely a
    rule it returns is the first matching one, and it returns [None] only
    when no rule matches. *)
Theorem evaluate_first_match (facts : gset string) :
  (∀ i rule, first_match __init__ facts i rule →
     ∃ conclusion, getitem rule "conclusion" = Ok conclusion ∧
                   evaluate __init__ facts = Ok (Some rule, conclusion)) ∧
  ((∀ rule, rule ∈ rules __init__ → ¬ matches rule facts) →
     evaluate __init__ facts = Ok (None, default __init__)) ∧
  (∀ rule conclusion, evaluate __init__ facts = Ok (Some rule, conclusion) →
     getitem rule "conclusion" = Ok conclusion ∧
     ∃ i, first_match __init__ facts i rule) ∧
  (∀ conclusion, evaluate __init__ facts = Ok (None, conclusion) →
     conclusion = default __init__ ∧
     ∀ rule, rule ∈ rules __init__ → ¬ matches rule facts).
Proof. apply evaluate_well_formed, init_well_formed. Qed.

(** C2: when fever, cough and loss_taste_smell are all among the facts, both
    rules match, and [evaluate] returns Rule 1, named
    "Rule 1: Fever + Loss of Taste/Smell", and not Rule 2. *)
Theorem evaluate_rule_1_before_rule_2 (facts : gset string) :
  "fever" ∈ facts → "cough" ∈ facts → "loss_taste_smell" ∈ facts →
  matches rule_1 facts ∧ matches rule_2 facts ∧
  (∃ conclusion, evaluate __init__ facts = Ok (Some rule_1, conclusion) ∧
                 has_confidence conclusion "High") ∧
  getitem rule_1 "name" = Ok (VStr "Rule 1: Fever + Loss of Taste/Smell") ∧
  (∀ conclusion, evaluate __init__ facts ≠ Ok (Some rule_2, conclusion)).
Proof.
  intros Hf Hc Hl.
  assert (matches rule_1 facts) as H1 by by apply matches_rule_1.
  assert (matches rule_2 facts) as H2 by by apply matches_rule_2.
  destruct (evaluate_loop_first facts (rules __init__) (default __init__)
              0 rule_1 init_well_formed eq_refl H1) as (c & Hconcl & Hev).
  { intros j earlier Hj. lia. }
  split_and!; [done | done | | reflexivity |].
  { exists c. split; [done|]. by apply rule_1_confidence. }
  intros c' Hev'. unfold evaluate in Hev'. rewrite Hev in Hev'.
  apply Ok_Some_inj in Hev' as [Hr _]. by apply rule_1_neq_rule_2.
Qed.

Lemma evaluate_rule_1_before_rule_2_witness :
  let facts : gset string := {[ "fever"; "cough"; "loss_taste_smell" ]} in
  ("fever" ∈ facts ∧ "cough" ∈ facts ∧ "loss_taste_smell" ∈ facts) ∧
  ∃ conclusion, evaluate __init__ facts = Ok (Some rule_1, conclusion) ∧
                has_confidence conclusion "High".
Proof.
  intros facts.
  assert ("fever" ∈ facts) as Hf by (subst facts; set_solver).
  assert ("cough" ∈ facts) as Hc by (subst facts; set_solver).
  assert ("loss_taste_smell" ∈ facts) as Hl by (subst facts; set_solver).
  split; [done|].
  exact (proj1 (proj2 (proj2 (evaluate_rule_1_before_rule_2 facts Hf Hc Hl)))).
Defined.

(** C3: when fever and cough are among the facts and loss_taste_smell is
    not, [evaluate] returns the rule named "Rule 2: Fever + Cough" with the
    conclusion of that rule, whose confidence is Medium. *)
Theorem evaluate_rule_2 (facts : gset string) :
  "fever" ∈ facts → "cough" ∈ facts → "loss_taste_smell" ∉ facts →
  ∃ conclusion,
    evaluate __init__ facts = Ok (Some rule_2, conclusion) ∧
    getitem rule_2 "name" = Ok (VStr "Rule 2: Fever + Cough") ∧
    getitem rule_2 "conclusion" = Ok conclusion ∧
    has_confidence conclusion "Medium".
Proof.
  intros Hf Hc Hl.
  assert (matches rule_2 facts) as H2 by by apply matches_rule_2.
  destruct (evaluate_loop_first facts (rules __init__) (default __init__)
              1 rule_2 init_well_formed eq_refl H2) as (c & Hconcl & Hev).
  { intros [|j] earlier Hj Hlook; [|lia].
    apply (inj Some) in Hlook as <-. rewrite matches_rule_1. tauto. }
  exists c. split_and!; [done | reflexivity | done |].
  by apply rule_2_confidence.
Qed.

Lemma evaluate_rule_2_witness :
  let facts : gset string := {[ "fever"; "cough"; "sore_throat" ]} in
  ("fever" ∈ facts ∧ "cough" ∈ facts ∧ "loss_taste_smell" ∉ facts) ∧
  ∃ conclusion,
    evaluate __init__ facts = Ok (Some rule_2, conclusion) ∧
    has_confidence conclusion "Medium".
Proof.
  intros facts.
  assert ("fever" ∈ facts) as Hf by (subst facts; set_solver).
  assert ("cough" ∈ facts) as Hc by (subst facts; set_solver).
  assert ("loss_taste_smell" ∉ facts) as Hl by (subst facts; set_solver).
  split; [done|].
  destruct (evaluate_rule_2 facts Hf Hc Hl) as (c & Hev & _ & _ & Hconf).
  by exists c.
Defined.

(** C4: when the condition set of neither rule is contained in the facts,
    [evaluate] returns [None] as the matched rule together with the default
    conclusion, whose confidence is Low. *)
Theorem evaluate_default (facts : gset string) :
  ¬ matches rule_1 facts → ¬ matches rule_2 facts →
  evaluate __init__ facts = Ok (None, default __init__) ∧
  has_confidence (default __init__) "Low".
Proof.
  intros H1 H2. split; [|reflexivity].
  apply evaluate_loop_no_match; [reflexivity|].
  intros rule [-> | ->]%elem_of_init_rules; done.
Qed.

Lemma evaluate_default_witness :
  let facts : gset string := {[ "fever"; "sore_throat"; "recent_exposure" ]} in
  (¬ matches rule_1 facts ∧ ¬ matches rule_2 facts) ∧
  evaluate __init__ facts = Ok (None, default __init__).
Proof.
  intros facts.
  assert (¬ matches rule_1 facts) as H1
    by (rewrite matches_rule_1; subst facts; set_solver).
  assert (¬ matches rule_2 facts) as H2
    by (rewrite matches_rule_2; subst facts; set_solver).
  split; [done|].
  exact (proj1 (evaluate_default facts H1 H2)).
Defined.

Lemma rule_1_conclusion_valid conclusion :
  getitem rule_1 "conclusion" = Ok conclusion → valid_conclusion conclusion = true.
Proof.
  intros H.
  assert (getitem rule_1 "conclusion" ≫= (λ c, Ok (valid_conclusion c))
          = Ok true) as Hc by reflexivity.
  rewrite H in Hc. by injection Hc.
Qed.

Lemma rule_2_conclusion_valid conclusion :
  getitem rule_2 "conclusion" = Ok conclusion → valid_conclusion conclusion = true.
Proof.
  intros H.
  assert (getitem rule_2 "conclusion" ≫= (λ c, Ok (valid_conclusion c))
          = Ok true) as Hc by reflexivity.
  rewrite H in Hc. by injection Hc.
Qed.

(** The three outcomes of [evaluate] on the rule table of [__init__]. *)
Lemma evaluate_init_cases (facts : gset string) :
  (matches rule_1 facts ∧
   ∃ conclusion, getitem rule_1 "conclusion" = Ok conclusion ∧
                 evaluate __init__ facts = Ok (Some rule_1, conclusion)) ∨
  (¬ matches rule_1 facts ∧ matches rule_2 facts ∧
   ∃ conclusion, getitem rule_2 "conclusion" = Ok conclusion ∧
                 evaluate __init__ facts = Ok (Some rule_2, conclusion)) ∨
  (¬ matches rule_1 facts ∧ ¬ matches rule_2 facts ∧
   evaluate __init__ facts = Ok (None, default __init__)).
Proof.
  destruct (decide (matches rule_1 facts)) as [H1|H1].
  { left. split; [done|].
    apply (evaluate_loop_first facts _ _ 0); [reflexivity | reflexivity | done |].
    intros j earlier Hj. lia. }
  right. destruct (decide (matches rule_2 facts)) as [H2|H2].
  - left. split_and!; [done | done |].
    apply (evaluate_loop_first facts _ _ 1); [reflexivity | reflexivity | done |].
    intros [|j] earlier Hj Hlook; [|lia]. by apply (inj Some) in Hlook as <-.
  - right. split_and!; [done | done |].
    apply evaluate_loop_no_match; [reflexivity|].
    intros rule [-> | ->]%elem_of_init_rules; done.
Qed.

(** C5: [evaluate] is total on the rule table of [__init__]: for every fact
    set it returns, raising nothing, a matched rule or [None] together with a
    conclusion that has a label, a confidence and an advice; on the empty
    fact set it returns the default conclusion. *)
Theorem evaluate_total :
  (∀ facts : gset string, ∃ rule conclusion,
     evaluate __init__ facts = Ok (rule, conclusion) ∧
     valid_conclusion conclusion = true) ∧
  evaluate __init__ ∅ = Ok (None, default __init__).
Proof.
  split.
  - intros facts.
    destruct (evaluate_init_cases facts)
      as [(_ & c & Hc & Hev) | [(_ & _ & c & Hc & Hev) | (_ & _ & Hev)]].
    + exists (Some rule_1), c. split; [done|]. by apply rule_1_conclusion_valid.
    + exists (Some rule_2), c. split; [done|]. by apply rule_2_conclusion_valid.
    + exists None, (default __init__). split; [done|]. reflexivity.
  - apply evaluate_loop_no_match; [reflexivity|].
    intros rule [-> | ->]%elem_of_init_rules.
    + rewrite matches_rule_1. set_solver.
    + rewrite matches_rule_2. set_solver.
Qed.

(** Below a matching rule there is a first matching rule. *)
Lemma first_match_below (facts : gset string) (rs : list value)
    (i : nat) (rule : value) :
  rs !! i = Some rule → matches rule facts →
  ∃ (j : nat) rule', (j ≤ i)%nat ∧ rs !! j = Some rule' ∧ matches rule' facts ∧
    ∀ (k : nat) earlier,
      k < j → rs !! k = Some earlier → ¬ matches earlier facts.
Proof.
  revert i. induction rs as [|r rs IH]; intros i Hi Hm; [done|].
  destruct (decide (matches r facts)) as [Hr|Hr].
  { exists 0, r. split_and!; [lia | done | done | intros; lia]. }
  destruct i as [|i]; [by apply (inj Some) in Hi as ->|].
  destruct (IH i Hi Hm) as (j & rule' & Hle & Hj & Hmj & Hfirst).
  exists (S j), rule'. split_and!; [lia | done | done |].
  intros [|k] earlier Hk Hlook; [by apply (inj Some) in Hlook as <-|].
  apply (Hfirst k); [lia | done].
Qed.

(** C10: matching is monotone in the fact set.  When [F] is a subset of [G]
    and [evaluate] returns a matched rule for [F], it returns a matched rule
    for [G] as well, never the default, and the position of the rule matched
    for [G] in the store is no later than that of the rule matched for [F]. *)
Theorem evaluate_monotone (self : SimpleCovidExpert.t) (F G : gset string)
    (rule conclusion : value) :
  well_formed_store self = true →
  F ⊆ G →
  evaluate self F = Ok (Some rule, conclusion) →
  ∃ i j rule' conclusion',
    first_match self F i rule ∧
    first_match self G j rule' ∧
    evaluate self G = Ok (Some rule', conclusion') ∧
    (j ≤ i)%nat.
Proof.
  intros Hwf Hsub Hev.
  apply evaluate_loop_Some_inv in Hev as (_ & i & Hi & Hm & Hfirst); [|done].
  assert (matches rule G) as HmG by (unfold matches in *; set_solver).
  destruct (first_match_below G _ i rule Hi HmG)
    as (j & rule' & Hle & Hj & Hmj & HfirstG).
  destruct (evaluate_loop_first G (rules self) (default self) j rule'
              Hwf Hj Hmj HfirstG) as (c' & _ & HevG).
  exists i, j, rule', c'. by split_and!.
Qed.

Lemma evaluate_monotone_witness :
  let F : gset string := {[ "fever"; "cough" ]} in
  let G : gset string := {[ "fever"; "cough"; "loss_taste_smell" ]} in
  F ⊆ G ∧
  ∃ conclusion i j rule' conclusion',
    evaluate __init__ F = Ok (Some rule_2, conclusion) ∧
    first_match __init__ F i rule_2 ∧
    first_match __init__ G j rule' ∧
    evaluate __init__ G = Ok (Some rule', conclusion') ∧
    (j ≤ i)%nat.
Proof.
  intros F G.
  assert (F ⊆ G) as Hsub by (subst F G; set_solver).
  split; [done|].
  destruct (evaluate_init_cases F)
    as [(H1 & _) | [(_ & _ & c & _ & Hev) | (_ & H2 & _)]].
  - exfalso. apply matches_rule_1 in H1. subst F. set_solver.
  - exists c.
    destruct (evaluate_monotone __init__ F G rule_2 c init_well_formed Hsub Hev)
      as (i & j & rule' & c' & H).
    by exists i, j, rule', c'.
  - exfalso. apply H2, matches_rule_2. subst F. set_solver.
Defined.

(** ** Properties of the callbacks *)

Import CovidExpertUI.

Lemma Ok_pair_inj {A B} (a a' : A) (b b' : B) :
  Ok (a, b) = Ok (a', b') → a = a' ∧ b = b'.
Proof. intros H. by injection H. Qed.

Section CallbackProperties.

Variable container_repr : value → string.

Lemma in_tuple_High_Medium (confidence : value) :
  in_tuple confidence ["High"; "Medium"] = true ↔
  confidence = VStr "High" ∨ confidence = VStr "Medium".
Proof.
  unfold in_tuple. cbn. rewrite !orb_true_iff.
  destruct confidence as [s| |]; cbn.
  - rewrite !String.eqb_eq. split.
    + intros [-> | [-> | H]]; [by left | by right | done].
    + intros [[= ->] | [= ->]]; [by left | by right; left].
  - split; [intros [H | [H | H]]; done | intros [H | H]; done].
  - split; [intros [H | [H | H]]; done | intros [H | H]; done].
Qed.

(** One run of [run_diagnosis] that raises nothing, step by step: the
    fields it leaves in the form and the events it shows. *)
Lemma run_diagnosis_Ok (ui : CovidExpertUI.t) rule conclusion
    label confidence advice explanation :
  evaluate (engine ui) (checked (symptoms_vars ui)) = Ok (rule, conclusion) →
  getitem conclusion "label" = Ok label →
  getitem conclusion "confidence" = Ok confidence →
  getitem conclusion "advice" = Ok advice →
  rule_fired container_repr rule = Ok explanation →
  run_diagnosis container_repr ui =
    Ok ({| engine := engine ui;
           symptoms_vars := symptoms_vars ui;
           result_var := label;
           confidence_var := confidence;
           advice_text := {| content := [advice]; state := DISABLED |};
           explain_var := explanation |},
        if bool_decide ("recent_exposure" ∈ checked (symptoms_vars ui))
           && in_tuple confidence ["High"; "Medium"]
        then [notice] else []).
Proof.
  intros Hev Hl Hc Ha Hx. unfold CovidExpertUI.run_diagnosis.
  rewrite Hev. cbn. rewrite Hl. cbn. rewrite Hc. cbn. rewrite Ha. cbn.
  rewrite Hx. cbn. unfold exposure_notice.
  destruct (bool_decide ("recent_exposure" ∈ checked (symptoms_vars ui))); cbn.
  - rewrite Hc. cbn. reflexivity.
  - reflexivity.
Qed.

(** [run_diagnosis] writes neither the engine nor the check boxes. *)
Lemma run_diagnosis_frame (ui ui' : CovidExpertUI.t) events :
  run_diagnosis container_repr ui = Ok (ui', events) →
  engine ui' = engine ui ∧ symptoms_vars ui' = symptoms_vars ui.
Proof.
  unfold CovidExpertUI.run_diagnosis. intros H.
  apply bind_Ok in H as ([rule conclusion] & _ & H).
  apply bind_Ok in H as (label & _ & H).
  apply bind_Ok in H as (confidence & _ & H).
  apply bind_Ok in H as (advice & _ & H).
  apply bind_Ok in H as (explanation & _ & H).
  apply bind_Ok in H as (notice & _ & H).
  injection H as <- _. done.
Qed.

(** What a run of [run_diagnosis] that raised nothing went through. *)
Lemma run_diagnosis_inv (ui ui' : CovidExpertUI.t) events :
  run_diagnosis container_repr ui = Ok (ui', events) →
  ∃ rule conclusion label confidence advice explanation,
    evaluate (engine ui) (checked (symptoms_vars ui)) = Ok (rule, conclusion) ∧
    getitem conclusion "label" = Ok label ∧
    getitem conclusion "confidence" = Ok confidence ∧
    getitem conclusion "advice" = Ok advice ∧
    rule_fired container_repr rule = Ok explanation.
Proof.
  unfold CovidExpertUI.run_diagnosis. intros H.
  apply bind_Ok in H as ([rule conclusion] & Hev & H).
  apply bind_Ok in H as (label & Hl & H).
  apply bind_Ok in H as (confidence & Hc & H).
  apply bind_Ok in H as (advice & Ha & H).
  apply bind_Ok in H as (explanation & Hx & _).
  by exists rule, conclusion, label, confidence, advice, explanation.
Qed.

(** X14: [run_diagnosis] is idempotent.  A second run, on the form the
    first run left, raises nothing, leaves that very form and shows the same
    events: nothing a run writes, the advice box included, is read back by
    the next one. *)
Theorem run_diagnosis_twice (ui ui' : CovidExpertUI.t) events :
  run_diagnosis container_repr ui = Ok (ui', events) →
  run_diagnosis container_repr ui' = Ok (ui', events).
Proof.
  intros Hrun.
  destruct (run_diagnosis_inv _ _ _ Hrun)
    as (rule & c & l & cf & a & e & Hev & Hl & Hc & Ha & Hx).
  pose proof (run_diagnosis_Ok ui rule c l cf a e Hev Hl Hc Ha Hx) as Hfirst.
  rewrite Hfirst in Hrun. apply Ok_pair_inj in Hrun as [Hui Hevents].
  rewrite (run_diagnosis_Ok ui' rule c l cf a e); try done.
  - by subst ui' events.
  - by subst ui'.
Qed.

(** What [run_diagnosis] does on the rule table of [__init__], by the rule
    that fires. *)
Lemma run_diagnosis_init (ui : CovidExpertUI.t) :
  engine ui = SimpleCovidExpert.__init__ →
  ∃ rule conclusion confidence ui',
    evaluate SimpleCovidExpert.__init__ (checked (symptoms_vars ui))
      = Ok (rule, conclusion) ∧
    getitem conclusion "confidence" = Ok confidence ∧
    run_diagnosis container_repr ui =
      Ok (ui',
          if bool_decide ("recent_exposure" ∈ checked (symptoms_vars ui))
             && in_tuple confidence ["High"; "Medium"]
          then [notice] else []).
Proof.
  intros Heng. set (facts := checked (symptoms_vars ui)).
  destruct (evaluate_init_cases facts)
    as [(_ & c & Hc & Hev) | [(_ & _ & c & Hc & Hev) | (_ & _ & Hev)]].
  - assert (getitem rule_1 "conclusion" = Ok (VDict {[
        "label" := VStr "Likely COVID-19";
        "confidence" := VStr "High";
        "advice" := VStr "Seek medical advice and isolate. Consider getting a PCR test."
      ]})) as Hlit by reflexivity.
    rewrite Hc in Hlit. injection Hlit as ->.
    eexists (Some rule_1), _, (VStr "High"), _. split_and!; [done | reflexivity |].
    eapply run_diagnosis_Ok; rewrite ?Heng; [exact Hev | reflexivity..].
  - assert (getitem rule_2 "conclusion" = Ok (VDict {[
        "label" := VStr "Possible COVID-19";
        "confidence" := VStr "Medium";
        "advice" := VStr "Self-isolate, monitor symptoms and consider testing."
      ]})) as Hlit by reflexivity.
    rewrite Hc in Hlit. injection Hlit as ->.
    eexists (Some rule_2), _, (VStr "Medium"), _. split_and!; [done | reflexivity |].
    eapply run_diagnosis_Ok; rewrite ?Heng; [exact Hev | reflexivity..].
  - eexists None, _, (VStr "Low"), _. split_and!; [done | reflexivity |].
    eapply run_diagnosis_Ok; rewrite ?Heng; [exact Hev | reflexivity..].
Qed.

(** C7: the notice of [run_diagnosis] is shown if and only if
    recent_exposure is among the facts and the conclusion [evaluate] returns
    has confidence High or Medium, and nothing is shown otherwise; the facts
    fever, loss_taste_smell and recent_exposure bring it up, and
    recent_exposure alone does not. *)
Theorem exposure_notice_iff (ui : CovidExpertUI.t) :
  engine ui = SimpleCovidExpert.__init__ →
  let facts := checked (symptoms_vars ui) in
  ∃ rule conclusion,
    evaluate SimpleCovidExpert.__init__ facts = Ok (rule, conclusion) ∧
    (shows (run_diagnosis container_repr ui) [notice] ↔
       "recent_exposure" ∈ facts ∧
       (has_confidence conclusion "High" ∨ has_confidence conclusion "Medium")) ∧
    (shows (run_diagnosis container_repr ui) [] ↔
       ¬ ("recent_exposure" ∈ facts ∧
          (has_confidence conclusion "High" ∨
           has_confidence conclusion "Medium"))) ∧
    (facts = {[ "fever"; "loss_taste_smell"; "recent_exposure" ]} →
       shows (run_diagnosis container_repr ui) [notice]) ∧
    (facts = {[ "recent_exposure" ]} →
       shows (run_diagnosis container_repr ui) []).
Proof.
  intros Heng facts.
  destruct (run_diagnosis_init ui Heng)
    as (rule & conclusion & confidence & ui' & Hev & Hconf & Hrun).
  fold facts in Hev, Hrun.
  assert ("recent_exposure" ∈ facts ∧
          (has_confidence conclusion "High" ∨ has_confidence conclusion "Medium")
          ↔ bool_decide ("recent_exposure" ∈ facts)
            && in_tuple confidence ["High"; "Medium"] = true) as Hiff.
  { rewrite andb_true_iff, bool_decide_eq_true, in_tuple_High_Medium.
    unfold has_confidence. rewrite Hconf.
    split; intros [Hin [H | H]]; (split; [done|]);
      first [ left; congruence | right; congruence ]. }
  assert (shows (run_diagnosis container_repr ui) [notice] ↔
          "recent_exposure" ∈ facts ∧
          (has_confidence conclusion "High" ∨
           has_confidence conclusion "Medium")) as Hshown.
  { rewrite Hiff, Hrun. unfold shows.
    destruct (bool_decide _ && in_tuple _ _); split.
    - done.
    - intros _. by eexists.
    - intros (? & Heq). discriminate Heq.
    - done. }
  assert (shows (run_diagnosis container_repr ui) [] ↔
          ¬ ("recent_exposure" ∈ facts ∧
             (has_confidence conclusion "High" ∨
              has_confidence conclusion "Medium"))) as Hnone.
  { rewrite Hiff, Hrun. unfold shows.
    destruct (bool_decide _ && in_tuple _ _); split.
    - intros (? & Heq). discriminate Heq.
    - intros H. by destruct H.
    - intros _. discriminate.
    - intros _. by eexists. }
  exists rule, conclusion. split_and!; [done | done | done | |].
  - intros Hfacts. apply Hshown.
    assert (matches rule_1 facts) as H1
      by (apply matches_rule_1; rewrite Hfacts; set_solver).
    destruct (evaluate_loop_first facts (rules SimpleCovidExpert.__init__)
                (default SimpleCovidExpert.__init__) 0 rule_1
                init_well_formed eq_refl H1) as (c & Hc & Hev1).
    { intros j earlier Hj. lia. }
    unfold evaluate in Hev. rewrite Hev1 in Hev.
    apply Ok_pair_inj in Hev as [_ <-].
    split; [rewrite Hfacts; set_solver|]. left. by apply rule_1_confidence.
  - intros Hfacts. apply Hnone. intros [_ Hhigh].
    assert (evaluate SimpleCovidExpert.__init__ facts
            = Ok (None, default SimpleCovidExpert.__init__)) as Hev0.
    { apply evaluate_loop_no_match; [reflexivity|].
      intros r [-> | ->]%elem_of_init_rules.
      - rewrite matches_rule_1, Hfacts. set_solver.
      - rewrite matches_rule_2, Hfacts. set_solver. }
    rewrite Hev0 in Hev. apply Ok_pair_inj in Hev as [_ <-].
    pose proof default_confidence as Hlow. unfold has_confidence in *.
    destruct Hhigh as [H | H]; rewrite Hlow in H; discriminate H.
Qed.

(** C8: the listing of [show_rules] consists of the two rules of the store
    in the order in which [__init__] declares them, followed by the default,
    and every entry shows the name, the conditions and the label and
    confidence of the conclusion that the store holds: Rule 1 with fever
    and loss_taste_smell, "Likely COVID-19", High; Rule 2 with fever and
    cough, "Possible COVID-19", Medium; the default with
    "Low likelihood of COVID-19", Low. *)
Theorem show_rules_listing (ui : CovidExpertUI.t) :
  engine ui = SimpleCovidExpert.__init__ →
  show_rules container_repr ui =
    Ok {| title := "Rules";
          heading := "Expert System Rules";
          txt := {|
            content := [
              VStr ("Rule 1: Fever + Loss of Taste/Smell:" +:+ nl);
              VStr ("  IF fever AND loss_taste_smell" +:+ nl);
              VStr ("  THEN Likely COVID-19 (High)" +:+ nl +:+ nl);
              VStr ("Rule 2: Fever + Cough:" +:+ nl);
              VStr ("  IF fever AND cough" +:+ nl);
              VStr ("  THEN Possible COVID-19 (Medium)" +:+ nl +:+ nl);
              VStr "Default rule: Low likelihood of COVID-19 (Low)"
            ];
            state := DISABLED
          |} |} ∧
  rules (engine ui) = [rule_1; rule_2] ∧
  rule_reads rule_1 "Rule 1: Fever + Loss of Taste/Smell"
    {[ "fever"; "loss_taste_smell" ]} "Likely COVID-19" "High" ∧
  rule_reads rule_2 "Rule 2: Fever + Cough"
    {[ "fever"; "cough" ]} "Possible COVID-19" "Medium" ∧
  getitem (default (engine ui)) "label" = Ok (VStr "Low likelihood of COVID-19") ∧
  has_confidence (default (engine ui)) "Low".
Proof.
  intros Heng. unfold CovidExpertUI.show_rules. rewrite Heng.
  split_and!; try reflexivity.
  - split_and!; [reflexivity | |].
    + unfold condition_set.
      replace (getitem rule_1 "conditions")
        with (Ok (VList [VStr "fever"; VStr "loss_taste_smell"])) by reflexivity.
      cbn. set_solver.
    + destruct (well_formed_rule_inv rule_1 eq_refl) as (_ & c & _ & _ & Hc).
      exists c. split; [done|]. split; [|by apply rule_1_confidence].
      assert (getitem rule_1 "conclusion" ≫= (λ c, getitem c "label")
              = Ok (VStr "Likely COVID-19")) as Hl by reflexivity.
      by rewrite Hc in Hl.
  - split_and!; [reflexivity | |].
    + unfold condition_set.
      replace (getitem rule_2 "conditions")
        with (Ok (VList [VStr "fever"; VStr "cough"])) by reflexivity.
      cbn. set_solver.
    + destruct (well_formed_rule_inv rule_2 eq_refl) as (_ & c & _ & _ & Hc).
      exists c. split; [done|]. split; [|by apply rule_2_confidence].
      assert (getitem rule_2 "conclusion" ≫= (λ c, getitem c "label")
              = Ok (VStr "Possible COVID-19")) as Hl by reflexivity.
      by rewrite Hc in Hl.
Qed.

(** A valid rule has a condition set that is not empty. *)
Lemma valid_rule_condition_set rule :
  valid_rule rule = true → well_formed_rule rule = true ∧ condition_set rule ≠ ∅.
Proof.
  unfold valid_rule. intros [Hwf Hne]%andb_prop. split; [done|].
  apply well_formed_rule_inv in Hwf as (conditions & _ & Hc & Hs & _).
  unfold nonempty_conditions in Hne. unfold condition_set. rewrite Hc in *.
  destruct conditions as [|[s| |] rest]; try discriminate. cbn. set_solver.
Qed.

(** On a valid store [evaluate] raises nothing. *)
Lemma valid_store_total (self : SimpleCovidExpert.t) (facts : gset string) :
  valid_store self = true →
  ∃ rule conclusion, evaluate self facts = Ok (rule, conclusion).
Proof.
  unfold valid_store. intros [Hrules _]%andb_prop.
  apply evaluate_loop_total, forallb_forall.
  intros rule Hin. rewrite forallb_forall in Hrules.
  by apply valid_rule_condition_set, Hrules.
Qed.

(** No callback writes the engine. *)
Lemma step_engine (ui ui' : CovidExpertUI.t) :
  MainLoop.step container_repr ui ui' → engine ui' = engine ui.
Proof.
  intros [ui0 key b _ | ui0 ui1 events Hrun | ui0 | ui0 window _];
    try reflexivity.
  by apply run_diagnosis_frame in Hrun as [? _].
Qed.

(** On the rule table of [__init__] the listing raises nothing. *)
Lemma show_rules_init (ui : CovidExpertUI.t) :
  engine ui = SimpleCovidExpert.__init__ →
  ∃ window, show_rules container_repr ui = Ok window.
Proof.
  intros Heng. unfold CovidExpertUI.show_rules. rewrite Heng.
  eexists. reflexivity.
Qed.

(** C9: the invariant of the rule store.  In every form the user can reach
    the engine is still the one [__init__] built; each of its rules has a
    condition set that is not empty and the default conclusion is there, so
    that [evaluate] returns an answer for every fact set and no callback
    raises; and no step of the event loop changes the engine. *)
Theorem store_invariant (ui : CovidExpertUI.t) :
  MainLoop.reachable container_repr ui →
  engine ui = SimpleCovidExpert.__init__ ∧
  valid_store (engine ui) = true ∧
  (∀ rule, rule ∈ rules (engine ui) → condition_set rule ≠ ∅) ∧
  valid_conclusion (default (engine ui)) = true ∧
  (∀ facts, ∃ rule conclusion,
     evaluate (engine ui) facts = Ok (rule, conclusion)) ∧
  (∃ ui' events, run_diagnosis container_repr ui = Ok (ui', events)) ∧
  (∃ window, show_rules container_repr ui = Ok window) ∧
  (∀ ui', MainLoop.step container_repr ui ui' → engine ui' = engine ui).
Proof.
  intros Hreach.
  assert (engine ui = SimpleCovidExpert.__init__) as Heng.
  { induction Hreach as [|ui0 ui1 _ IH Hstep]; [reflexivity|].
    by rewrite (step_engine _ _ Hstep). }
  assert (valid_store (engine ui) = true) as Hvalid
    by (rewrite Heng; apply init_valid).
  split_and!; [done | done | | | | | | ].
  - intros rule Hin. apply valid_rule_condition_set.
    apply andb_prop in Hvalid as [Hrules _].
    rewrite forallb_forall in Hrules. apply Hrules. by apply list_elem_of_In.
  - by apply andb_prop in Hvalid as [_ ?].
  - intros facts. by apply valid_store_total.
  - destruct (run_diagnosis_init ui Heng) as (? & ? & ? & ui' & _ & _ & Hrun).
    by eexists _, _.
  - by apply show_rules_init.
  - apply step_engine.
Qed.

End CallbackProperties.

Lemma exposure_notice_iff_witness :
  let ui := set_symptoms_vars CovidExpertUI.__init__ {[
    "fever" := true;
    "cough" := false;
    "sore_throat" := false;
    "shortness_breath" := false;
    "loss_taste_smell" := true;
    "recent_exposure" := true
  ]} in
  engine ui = SimpleCovidExpert.__init__ ∧
  shows (run_diagnosis (λ _, "") ui) [notice].
Proof.
  intros ui. split; [reflexivity|].
  destruct (exposure_notice_iff (λ _, "") ui eq_refl)
    as (rule & conclusion & _ & _ & _ & Hshown & _).
  apply Hshown. vm_compute. reflexivity.
Defined.

Lemma show_rules_listing_witness :
  engine CovidExpertUI.__init__ = SimpleCovidExpert.__init__ ∧
  ∃ window,
    show_rules (λ _, "") CovidExpertUI.__init__ = Ok window ∧
    length (content (txt window)) = 7.
Proof.
  split; [reflexivity|].
  eexists. split.
  - exact (proj1 (show_rules_listing (λ _, "") CovidExpertUI.__init__ eq_refl)).
  - reflexivity.
Defined.

Lemma store_invariant_witness :
  let boxes := symptoms_vars CovidExpertUI.__init__ in
  let ui := reset (set_symptoms_vars CovidExpertUI.__init__
                     (<["fever" := negb false]> boxes)) in
  MainLoop.reachable (λ _, "") ui ∧
  valid_store (engine ui) = true.
Proof.
  intros boxes ui.
  assert (MainLoop.reachable (λ _, "") ui) as Hreach.
  { eapply MainLoop.reachable_step; [|apply MainLoop.step_reset].
    eapply MainLoop.reachable_step; [apply MainLoop.reachable_init|].
    by apply MainLoop.step_toggle. }
  split; [done|].
  exact (proj1 (proj2 (store_invariant (λ _, "") ui Hreach))).
Defined.

(** ** More on the rule engine *)

Lemma evaluate_loop_agree (F G : gset string) rs dflt :
  forallb well_formed_rule rs = true →
  (∀ rule, rule ∈ rs → (matches rule F ↔ matches rule G)) →
  evaluate_loop rs dflt F = evaluate_loop rs dflt G.
Proof.
  induction rs as [|r rs IH]; intros Hwf Hagree; [reflexivity|].
  apply andb_prop in Hwf as [Hr Hwf]. cbn.
  rewrite !(rule_fires_well_formed _ _ Hr). cbn.
  assert (bool_decide (matches r F) = bool_decide (matches r G)) as ->
    by (apply bool_decide_ext, Hagree; left).
  destruct (bool_decide (matches r G)); [reflexivity|].
  apply IH; [done|]. intros rule Hin. apply Hagree. by right.
Qed.

(** X1: on a well-formed store the answer of [evaluate] depends on the
    facts only through the conditions the rules list: two fact sets that
    agree on every condition of every rule get the same answer. *)
Theorem evaluate_only_conditions_count (self : SimpleCovidExpert.t)
    (F G : gset string) :
  well_formed_store self = true →
  (∀ rule s, rule ∈ rules self → s ∈ condition_set rule → (s ∈ F ↔ s ∈ G)) →
  evaluate self F = evaluate self G.
Proof.
  intros Hwf Hagree. apply evaluate_loop_agree; [done|].
  intros rule Hin. unfold matches. specialize (Hagree rule). set_solver.
Qed.

Lemma condition_set_rule_1 :
  condition_set rule_1 = {[ "fever"; "loss_taste_smell" ]}.
Proof.
  unfold condition_set.
  replace (getitem rule_1 "conditions")
    with (Ok (VList [VStr "fever"; VStr "loss_taste_smell"])) by reflexivity.
  cbn. set_solver.
Qed.

Lemma condition_set_rule_2 : condition_set rule_2 = {[ "fever"; "cough" ]}.
Proof.
  unfold condition_set.
  replace (getitem rule_2 "conditions")
    with (Ok (VList [VStr "fever"; VStr "cough"])) by reflexivity.
  cbn. set_solver.
Qed.

Lemma evaluate_only_conditions_count_witness :
  let F : gset string := {[ "fever"; "cough" ]} in
  let G : gset string :=
    {[ "fever"; "cough"; "sore_throat"; "recent_exposure" ]} in
  (∀ rule s, rule ∈ rules SimpleCovidExpert.__init__ → s ∈ condition_set rule → (s ∈ F ↔ s ∈ G)) ∧
  evaluate SimpleCovidExpert.__init__ F = evaluate SimpleCovidExpert.__init__ G.
Proof.
  intros F G.
  assert (∀ rule s, rule ∈ rules SimpleCovidExpert.__init__ → s ∈ condition_set rule →
                    (s ∈ F ↔ s ∈ G)) as Hagree.
  { intros rule s [-> | ->]%elem_of_init_rules.
    - rewrite condition_set_rule_1. subst F G. set_solver.
    - rewrite condition_set_rule_2. subst F G. set_solver. }
  split; [done|].
  exact (evaluate_only_conditions_count SimpleCovidExpert.__init__ F G init_well_formed Hagree).
Defined.

(** X2: of the six symptoms of the form only fever, cough and
    loss_taste_smell bear on the answer of the engine: sore_throat,
    shortness_breath, recent_exposure and any other fact can be dropped
    without changing what [evaluate] returns. *)
Theorem evaluate_three_symptoms_count (facts : gset string) :
  evaluate SimpleCovidExpert.__init__ facts
    = evaluate SimpleCovidExpert.__init__ (facts ∩ {[ "fever"; "cough"; "loss_taste_smell" ]}).
Proof.
  apply evaluate_loop_agree; [reflexivity|].
  intros rule [-> | ->]%elem_of_init_rules.
  - rewrite !matches_rule_1. set_solver.
  - rewrite !matches_rule_2. set_solver.
Qed.

Lemma evaluate_loop_skip (facts : gset string) pre rest dflt :
  forallb well_formed_rule pre = true →
  (∀ rule, rule ∈ pre → ¬ matches rule facts) →
  evaluate_loop (pre ++ rest) dflt facts = evaluate_loop rest dflt facts.
Proof.
  induction pre as [|r pre IH]; intros Hwf Hno; [reflexivity|].
  apply andb_prop in Hwf as [Hr Hwf]. cbn.
  rewrite (rule_fires_well_formed _ _ Hr). cbn.
  rewrite bool_decide_eq_false_2 by (apply Hno; left).
  apply IH; [done|]. intros rule Hin. apply Hno. by right.
Qed.

(** X3: [evaluate] returns at the first rule that fires and reads none of
    the rules after it: when the rules before [rule] are well formed and
    do not match, and [rule] is well formed and matches, the answer is
    [rule] with its conclusion whatever follows it in the list, a value
    that is no rule at all included. *)
Theorem evaluate_stops_at_first_match (facts : gset string)
    (pre post : list value) (rule dflt : value) :
  forallb well_formed_rule pre = true →
  (∀ earlier, earlier ∈ pre → ¬ matches earlier facts) →
  well_formed_rule rule = true →
  matches rule facts →
  ∃ conclusion,
    getitem rule "conclusion" = Ok conclusion ∧
    evaluate {| rules := pre ++ rule :: post; default := dflt |} facts
      = Ok (Some rule, conclusion).
Proof.
  intros Hpre Hno Hwf Hm.
  apply well_formed_rule_inv in Hwf as Hinv.
  destruct Hinv as (_ & conclusion & _ & _ & Hc).
  exists conclusion. split; [done|].
  unfold evaluate. cbn. rewrite evaluate_loop_skip by done. cbn.
  rewrite (rule_fires_well_formed _ _ Hwf). cbn.
  rewrite bool_decide_eq_true_2 by done. by rewrite Hc.
Qed.

Lemma evaluate_stops_at_first_match_witness :
  let facts : gset string := {[ "fever"; "cough" ]} in
  let post := [VStr "not a rule"; VList []] in
  (forallb well_formed_rule [rule_1] = true ∧
   (∀ earlier, earlier ∈ [rule_1] → ¬ matches earlier facts) ∧
   well_formed_rule rule_2 = true ∧
   matches rule_2 facts ∧
   forallb well_formed_rule post = false) ∧
  ∃ conclusion,
    evaluate {| rules := [rule_1] ++ rule_2 :: post; default := VStr "d" |} facts
      = Ok (Some rule_2, conclusion).
Proof.
  intros facts post.
  assert (∀ earlier, earlier ∈ [rule_1] → ¬ matches earlier facts) as Hno.
  { intros earlier ->%list_elem_of_singleton.
    rewrite matches_rule_1. subst facts. set_solver. }
  assert (matches rule_2 facts) as Hm.
  { rewrite matches_rule_2. subst facts. set_solver. }
  split; [by split_and!|].
  destruct (evaluate_stops_at_first_match facts [rule_1] post rule_2 (VStr "d")
              eq_refl Hno eq_refl Hm) as (c & _ & Hev).
  by exists c.
Defined.

(** X4: a rule is shadowed by an earlier rule whose condition set is
    contained in its own: on a well-formed store [evaluate] never answers
    from the position of the later rule. *)
Theorem evaluate_shadowed_rule (self : SimpleCovidExpert.t) (i j : nat)
    (general specific : value) :
  well_formed_store self = true →
  rules self !! i = Some general →
  rules self !! j = Some specific →
  i < j →
  condition_set general ⊆ condition_set specific →
  ∀ facts rule conclusion,
    evaluate self facts = Ok (Some rule, conclusion) →
    ∃ k, first_match self facts k rule ∧ k ≠ j.
Proof.
  intros Hwf Hi Hj Hlt Hsub facts rule conclusion Hev.
  unfold evaluate in Hev.
  apply evaluate_loop_Some_inv in Hev as (_ & k & Hk & Hm & Hfirst); [|done].
  exists k. split; [done|]. intros ->.
  apply (Hfirst i general Hlt Hi).
  assert (Some rule = Some specific) as [= ->] by by rewrite <- Hk, <- Hj.
  unfold matches in *. set_solver.
Qed.

Lemma evaluate_shadowed_rule_witness :
  let general := VDict {[ "conditions" := VList [VStr "fever"];
                          "conclusion" := VStr "c1" ]} in
  let specific := VDict {[ "conditions" := VList [VStr "fever"; VStr "cough"];
                           "conclusion" := VStr "c2" ]} in
  let store := {| rules := [general; specific]; default := VStr "d" |} in
  let facts : gset string := {[ "fever"; "cough" ]} in
  (well_formed_store store = true ∧
   condition_set general ⊆ condition_set specific) ∧
  ∃ rule conclusion k,
    evaluate store facts = Ok (Some rule, conclusion) ∧
    first_match store facts k rule ∧ k ≠ 1.
Proof.
  intros general specific store facts.
  assert (condition_set general ⊆ condition_set specific) as Hsub.
  { unfold condition_set.
    replace (getitem general "conditions")
      with (Ok (VList [VStr "fever"])) by reflexivity.
    replace (getitem specific "conditions")
      with (Ok (VList [VStr "fever"; VStr "cough"])) by reflexivity.
    cbn. set_solver. }
  split; [by split|].
  destruct (evaluate_loop_total facts (rules store) (default store) eq_refl)
    as (rule & conclusion & Hev).
  destruct rule as [rule|].
  - destruct (evaluate_shadowed_rule store 0 1 general specific eq_refl
                eq_refl eq_refl ltac:(lia) Hsub facts rule conclusion Hev)
      as (k & Hfirst & Hne).
    by exists rule, conclusion, k.
  - exfalso. apply evaluate_loop_None_inv in Hev as [_ Hno]; [|reflexivity].
    apply (Hno general); [by left|].
    unfold matches, condition_set.
    replace (getitem general "conditions")
      with (Ok (VList [VStr "fever"])) by reflexivity.
    cbn. subst facts. set_solver.
Defined.

Lemma valid_rule_inv rule :
  valid_rule rule = true → well_formed_rule rule = true ∧ condition_set rule ≠ ∅.
Proof. apply (valid_rule_condition_set (λ _, "")). Qed.

Lemma evaluate_loop_no_facts rs dflt :
  forallb valid_rule rs = true →
  evaluate_loop rs dflt ∅ = Ok (None, dflt).
Proof.
  intros Hrules. rewrite forallb_forall in Hrules.
  apply evaluate_loop_no_match.
  - apply forallb_forall. intros rule Hin.
    by apply valid_rule_inv, Hrules.
  - intros rule Hin Hm.
    apply list_elem_of_In, Hrules, valid_rule_inv in Hin as [_ Hne].
    unfold matches in Hm. set_solver.
Qed.

(** X5: the non-empty condition sets of a valid store are what makes the
    engine fall back to the default when there are no facts at all: on every
    valid store [evaluate] with the empty fact set returns [None] and the
    default conclusion. *)
Theorem evaluate_no_facts_default (self : SimpleCovidExpert.t) :
  valid_store self = true →
  evaluate self ∅ = Ok (None, default self).
Proof.
  unfold valid_store. intros [Hrules _]%andb_prop.
  by apply evaluate_loop_no_facts.
Qed.

Lemma evaluate_no_facts_default_witness :
  valid_store SimpleCovidExpert.__init__ = true ∧
  evaluate SimpleCovidExpert.__init__ ∅ = Ok (None, default SimpleCovidExpert.__init__).
Proof.
  split; [reflexivity|].
  exact (evaluate_no_facts_default SimpleCovidExpert.__init__ eq_refl).
Defined.

(** X13: on every well-formed store [evaluate] raises nothing, and its
    answer is either a rule of the store that matches the facts, with the
    conclusion of that very rule, or [None] with the default when no rule
    of the store matches. *)
Theorem evaluate_well_formed_answer (self : SimpleCovidExpert.t)
    (facts : gset string) :
  well_formed_store self = true →
  ∃ rule conclusion,
    evaluate self facts = Ok (rule, conclusion) ∧
    match rule with
    | Some r =>
        r ∈ rules self ∧ matches r facts ∧
        getitem r "conclusion" = Ok conclusion
    | None =>
        conclusion = default self ∧
        ∀ r, r ∈ rules self → ¬ matches r facts
    end.
Proof.
  intros Hwf.
  destruct (evaluate_loop_total facts (rules self) (default self) Hwf)
    as (rule & conclusion & Hev).
  exists rule, conclusion. split; [done|]. destruct rule as [r|].
  - apply evaluate_loop_Some_inv in Hev as (Hc & i & Hi & Hm & _); [|done].
    split_and!; [|done|done]. by apply list_elem_of_lookup_2 in Hi.
  - by apply evaluate_loop_None_inv in Hev.
Qed.

Lemma evaluate_well_formed_answer_witness :
  let facts : gset string := {[ "fever"; "loss_taste_smell" ]} in
  well_formed_store SimpleCovidExpert.__init__ = true ∧
  ∃ rule conclusion,
    evaluate SimpleCovidExpert.__init__ facts = Ok (rule, conclusion) ∧
    (rule = None → conclusion = default SimpleCovidExpert.__init__).
Proof.
  intros facts. split; [reflexivity|].
  destruct (evaluate_well_formed_answer SimpleCovidExpert.__init__ facts eq_refl)
    as (rule & conclusion & Hev & H).
  exists rule, conclusion. split; [exact Hev|].
  intros ->. exact (proj1 H).
Defined.

(** ** More on the callbacks *)

Lemma join_items_strings (sep : string) (l : list string) :
  join_items sep (VStr <$> l) = Ok (String.concat sep l).
Proof.
  induction l as [|x l IH]; [reflexivity|].
  destruct l as [|y l]; [reflexivity|].
  change (join_items sep (VStr <$> x :: y :: l))
    with (join_items sep (VStr <$> y :: l) ≫= (λ t, Ok (x +:+ sep +:+ t))).
  by rewrite IH.
Qed.

Lemma elem_of_checked (vars : gmap string bool) (k : string) :
  k ∈ checked vars ↔ vars !! k = Some true.
Proof.
  unfold checked. rewrite elem_of_dom. split.
  - intros [b Hb]. apply map_lookup_filter_Some in Hb as [Hb Htrue].
    cbn in Htrue. by subst b.
  - intros Hk. exists true. by apply map_lookup_filter_Some.
Qed.

Lemma checked_all_false (vars : gmap string bool) :
  checked ((λ _, false) <$> vars) = ∅.
Proof.
  apply set_eq. intros k. rewrite elem_of_checked, lookup_fmap.
  split; [|set_solver]. destruct (vars !! k); discriminate.
Qed.

Lemma valid_conclusion_inv (c : value) :
  valid_conclusion c = true →
  ∃ label confidence advice,
    getitem c "label" = Ok label ∧
    getitem c "confidence" = Ok confidence ∧
    getitem c "advice" = Ok advice.
Proof.
  unfold valid_conclusion.
  destruct (getitem c "label") as [label|]; [|discriminate].
  destruct (getitem c "confidence") as [confidence|]; [|discriminate].
  destruct (getitem c "advice") as [advice|]; [|discriminate].
  by exists label, confidence, advice.
Qed.

Section MoreCallbackProperties.

Variable container_repr : value → string.

Lemma show_rule_chunks (w : text) (r : value) (e : entry) :
  state w = NORMAL → holds r e →
  show_rule container_repr w r
    = Ok {| content := content w ++ lines e; state := NORMAL |}.
Proof.
  destruct w as [chunks st]. cbn. intros ->.
  intros (Hname & Hconds & c & Hc & Hlabel & Hconf).
  unfold show_rule. rewrite Hname. cbn. rewrite Hconds. cbn.
  unfold join. cbn [iter]. rewrite join_items_strings. cbn.
  rewrite Hc. cbn. rewrite Hlabel. cbn. rewrite Hconf. cbn.
  unfold insert. cbn. unfold lines. by rewrite <- !app_assoc.
Qed.

Lemma show_rules_loop_chunks (w : text) (rs : list value) (entries : list entry) :
  state w = NORMAL → Forall2 holds rs entries →
  show_rules_loop container_repr w rs
    = Ok {| content := content w ++ flat_map lines entries; state := NORMAL |}.
Proof.
  intros Hw Hall. revert w Hw.
  induction Hall as [|r e rs entries Hr _ IH]; intros w Hw.
  - destruct w as [chunks st]. cbn in *. subst st. by rewrite app_nil_r.
  - cbn [show_rules_loop flat_map]. rewrite (show_rule_chunks w r e Hw Hr). cbn.
    rewrite IH by done. cbn. by rewrite <- app_assoc.
Qed.

(** X6: the listing of [show_rules] on any store whose rules hold strings:
    for each rule in the order of the store three chunks, the name, the
    conditions in their declared order separated by " AND " and the label
    with the confidence, and after them the line of the default; the text
    is left disabled.  An empty condition list gives an empty line after
    "IF" and a single condition no "AND". *)
Theorem show_rules_lines (ui : CovidExpertUI.t) (entries : list entry)
    (label confidence : string) :
  Forall2 holds (rules (engine ui)) entries →
  getitem (default (engine ui)) "label" = Ok (VStr label) →
  getitem (default (engine ui)) "confidence" = Ok (VStr confidence) →
  show_rules container_repr ui =
    Ok {| title := "Rules";
          heading := "Expert System Rules";
          txt := {|
            content :=
              flat_map lines entries ++
              [VStr ("Default rule: " +:+ label +:+ " (" +:+ confidence +:+ ")")];
            state := DISABLED
          |} |}.
Proof.
  intros Hall Hlabel Hconf. unfold CovidExpertUI.show_rules.
  rewrite (show_rules_loop_chunks _ _ entries) by done. cbn.
  rewrite Hlabel. cbn. rewrite Hconf. reflexivity.
Qed.

(** X7: what a run of [run_diagnosis] that raises nothing leaves in the
    form, on any engine: the label and the confidence of the conclusion
    [evaluate] returned for the checked boxes, the advice of that conclusion
    as the only content of the advice box, whatever the box held before and
    whether it was enabled or not, and the line for the rule that fired; the
    box ends disabled, the engine and the check boxes are untouched, and at
    most the one notice is shown. *)
Theorem run_diagnosis_shows_conclusion (ui ui' : CovidExpertUI.t)
    (events : list event) :
  run_diagnosis container_repr ui = Ok (ui', events) →
  ∃ rule conclusion advice,
    evaluate (engine ui) (checked (symptoms_vars ui)) = Ok (rule, conclusion) ∧
    getitem conclusion "label" = Ok (result_var ui') ∧
    getitem conclusion "confidence" = Ok (confidence_var ui') ∧
    getitem conclusion "advice" = Ok advice ∧
    advice_text ui' = {| content := [advice]; state := DISABLED |} ∧
    rule_fired container_repr rule = Ok (explain_var ui') ∧
    engine ui' = engine ui ∧
    symptoms_vars ui' = symptoms_vars ui ∧
    (events = [] ∨ events = [notice]).
Proof.
  intros Hrun.
  destruct (run_diagnosis_inv _ _ _ _ Hrun)
    as (rule & c & l & cf & a & e & Hev & Hl & Hc & Ha & Hx).
  rewrite (run_diagnosis_Ok _ ui rule c l cf a e Hev Hl Hc Ha Hx) in Hrun.
  apply Ok_pair_inj in Hrun as [<- <-].
  exists rule, c, a. split_and!; try done.
  destruct (_ && _); [by right | by left].
Qed.

(** On the rule table of [__init__]: the display a run leaves, by the rule
    that matches the checked boxes. *)
Lemma run_diagnosis_init_display (ui : CovidExpertUI.t) :
  engine ui = SimpleCovidExpert.__init__ →
  let facts := checked (symptoms_vars ui) in
  ∃ ui' events,
    run_diagnosis container_repr ui = Ok (ui', events) ∧
    state (advice_text ui') = DISABLED ∧
    ((matches rule_1 facts ∧ display ui' = display_rule_1) ∨
     (¬ matches rule_1 facts ∧ matches rule_2 facts ∧
      display ui' = display_rule_2) ∨
     (¬ matches rule_1 facts ∧ ¬ matches rule_2 facts ∧
      display ui' = display_default)).
Proof.
  intros Heng facts.
  destruct (evaluate_init_cases facts)
    as [(H1 & c & Hc & Hev) | [(H1 & H2 & c & Hc & Hev) | (H1 & H2 & Hev)]].
  - assert (getitem rule_1 "conclusion" = Ok (VDict {[
        "label" := VStr "Likely COVID-19";
        "confidence" := VStr "High";
        "advice" := VStr "Seek medical advice and isolate. Consider getting a PCR test."
      ]})) as Hlit by reflexivity.
    rewrite Hc in Hlit. injection Hlit as ->.
    eexists _, _. split.
    { eapply run_diagnosis_Ok; rewrite ?Heng; [exact Hev | reflexivity..]. }
    split; [reflexivity|]. left. by split.
  - assert (getitem rule_2 "conclusion" = Ok (VDict {[
        "label" := VStr "Possible COVID-19";
        "confidence" := VStr "Medium";
        "advice" := VStr "Self-isolate, monitor symptoms and consider testing."
      ]})) as Hlit by reflexivity.
    rewrite Hc in Hlit. injection Hlit as ->.
    eexists _, _. split.
    { eapply run_diagnosis_Ok; rewrite ?Heng; [exact Hev | reflexivity..]. }
    split; [reflexivity|]. right. left. by split_and!.
  - eexists _, _. split.
    { eapply run_diagnosis_Ok; rewrite ?Heng; [exact Hev | reflexivity..]. }
    split; [reflexivity|]. right. right. by split_and!.
Qed.

(** X8: what the form displays after a diagnosis on the rule table of
    [__init__].  The run raises nothing; with fever and loss_taste_smell
    checked the panel reads "Likely COVID-19", High, the advice of Rule 1 and
    "Fired: Rule 1: Fever + Loss of Taste/Smell"; otherwise, with fever and
    cough checked, "Possible COVID-19", Medium, the advice of Rule 2 and
    "Fired: Rule 2: Fever + Cough"; otherwise the default label
    "Low likelihood of COVID-19", Low, its advice and
    "Default rule applied.". *)
Theorem run_diagnosis_display (ui : CovidExpertUI.t) :
  engine ui = SimpleCovidExpert.__init__ →
  let boxes := checked (symptoms_vars ui) in
  ∃ ui' events,
    run_diagnosis container_repr ui = Ok (ui', events) ∧
    ("fever" ∈ boxes → "loss_taste_smell" ∈ boxes →
       display ui' = display_rule_1) ∧
    ("fever" ∈ boxes → "cough" ∈ boxes → "loss_taste_smell" ∉ boxes →
       display ui' = display_rule_2) ∧
    ((("fever" ∉ boxes) ∨ (("cough" ∉ boxes) ∧ ("loss_taste_smell" ∉ boxes))) →
       display ui' = display_default).
Proof.
  intros Heng boxes.
  destruct (run_diagnosis_init_display ui Heng) as (ui' & events & Hrun & _ & H).
  fold boxes in H. rewrite matches_rule_1, matches_rule_2 in H.
  exists ui', events. split; [done|].
  destruct H as [(H1 & Hd) | [(H1 & H2 & Hd) | (H1 & H2 & Hd)]];
    split_and!; intros; try done; tauto.
Qed.

(** The engine and the keys of the check boxes in the forms the user can
    reach. *)
Lemma reachable_inv (ui : CovidExpertUI.t) :
  MainLoop.reachable container_repr ui →
  engine ui = SimpleCovidExpert.__init__ ∧ dom (symptoms_vars ui) = symptoms.
Proof.
  induction 1 as [|ui ui' _ [Heng Hdom] Hstep]; [by split|].
  split; [by rewrite (step_engine _ _ _ Hstep)|].
  destruct Hstep as [ui key b Hkey | ui ui' events Hrun | ui | ui window _].
  - cbn. rewrite dom_insert_L. apply elem_of_dom_2 in Hkey. set_solver.
  - by apply run_diagnosis_frame in Hrun as [_ ->].
  - cbn. by rewrite dom_fmap_L.
  - done.
Qed.

(** X9: an invariant of the form along the event loop.  Whatever the user
    does, the check boxes are the six symptoms, the advice box is disabled,
    and the panel shows one of four displays: the one of startup, or the
    label, confidence, advice and "Rule Fired" line that belong to Rule 1, to
    Rule 2 or to the default; it never mixes the fields of two answers and
    never piles up advice texts. *)
Theorem reachable_display (ui : CovidExpertUI.t) :
  MainLoop.reachable container_repr ui →
  dom (symptoms_vars ui) = symptoms ∧
  state (advice_text ui) = DISABLED ∧
  (display ui = display_startup ∨ display ui = display_rule_1 ∨
   display ui = display_rule_2 ∨ display ui = display_default).
Proof.
  intros Hreach. split; [by apply reachable_inv|].
  induction Hreach as [|ui ui' Hreach [Hstate Hdisplay] Hstep].
  { split; [reflexivity | by left]. }
  destruct Hstep as [ui key b Hkey | ui ui' events Hrun | ui | ui window _].
  - by split.
  - apply reachable_inv in Hreach as [Heng _].
    destruct (run_diagnosis_init_display ui Heng)
      as (ui'' & events' & Hrun' & Hst & H).
    rewrite Hrun' in Hrun. apply Ok_pair_inj in Hrun as [-> _].
    split; [done|]. right.
    destruct H as [(_ & Hd) | [(_ & _ & Hd) | (_ & _ & Hd)]]; tauto.
  - split; [reflexivity | by left].
  - by split.
Qed.

(** X10: [reset] undoes everything.  From every form the user can reach it
    leads back to the very form [main] starts with: all boxes unchecked, the
    initial texts, and the advice box empty and disabled. *)
Theorem reset_restores_startup (ui : CovidExpertUI.t) :
  MainLoop.reachable container_repr ui →
  reset ui = CovidExpertUI.__init__.
Proof.
  intros [Heng Hdom]%reachable_inv.
  assert ((λ _ : bool, false) <$> symptoms_vars ui
          = symptoms_vars CovidExpertUI.__init__) as Hboxes.
  { change ((λ _ : bool, false) <$> symptoms_vars ui)
      with (const false <$> symptoms_vars ui).
    rewrite <- gset_to_gmap_dom, Hdom. vm_compute. reflexivity. }
  destruct ui as [eng boxes r c a e]. unfold reset. cbn in *.
  rewrite Hboxes, Heng. reflexivity.
Qed.

(** X11: [reset] and then [run_diagnosis], on any valid store: with every
    box unchecked no rule fires, whatever the store, so the run raises
    nothing, shows no notice and leaves the label and the confidence of the
    default conclusion and "Default rule applied." *)
Theorem diagnosis_after_reset (ui : CovidExpertUI.t) :
  valid_store (engine ui) = true →
  ∃ ui',
    run_diagnosis container_repr (reset ui) = Ok (ui', []) ∧
    getitem (default (engine ui)) "label" = Ok (result_var ui') ∧
    getitem (default (engine ui)) "confidence" = Ok (confidence_var ui') ∧
    explain_var ui' = VStr "Default rule applied.".
Proof.
  unfold valid_store. intros [Hrules Hdefault]%andb_prop.
  apply valid_conclusion_inv in Hdefault as (l & cf & a & Hl & Hcf & Ha).
  assert (checked (symptoms_vars (reset ui)) = ∅) as Hnone
    by apply checked_all_false.
  eexists. split.
  - rewrite (run_diagnosis_Ok container_repr (reset ui) None
               (default (engine ui)) l cf a (VStr "Default rule applied."));
      try done.
    + rewrite Hnone. rewrite bool_decide_eq_false_2 by set_solver. reflexivity.
    + rewrite Hnone. by apply evaluate_loop_no_facts.
  - by split_and!.
Qed.

End MoreCallbackProperties.

(** X12: the facts of a diagnosis are the checked boxes: checking a box
    adds its key to the facts, unchecking it takes the key away, the other
    keys stay as they are, and after [reset] there is no fact left. *)
Theorem checked_boxes :
  (∀ (vars : gmap string bool) (key : string),
     checked (<[key := true]> vars) = {[ key ]} ∪ checked vars) ∧
  (∀ (vars : gmap string bool) (key : string),
     checked (<[key := false]> vars) = checked vars ∖ {[ key ]}) ∧
  (∀ ui : CovidExpertUI.t, checked (symptoms_vars (reset ui)) = ∅).
Proof.
  split_and!.
  - intros vars key. apply set_eq. intros k.
    rewrite elem_of_union, elem_of_singleton, !elem_of_checked.
    destruct (decide (key = k)) as [->|Hne].
    + rewrite lookup_insert_eq. naive_solver.
    + rewrite lookup_insert_ne by done. naive_solver.
  - intros vars key. apply set_eq. intros k.
    rewrite elem_of_difference, elem_of_singleton, !elem_of_checked.
    destruct (decide (key = k)) as [->|Hne].
    + rewrite lookup_insert_eq. naive_solver.
    + rewrite lookup_insert_ne by done. naive_solver.
  - intros ui. apply checked_all_false.
Qed.

Lemma show_rules_lines_witness :
  let entries := [
    {| entry_name := "Rule 1: Fever + Loss of Taste/Smell";
       entry_conditions := ["fever"; "loss_taste_smell"];
       entry_label := "Likely COVID-19";
       entry_confidence := "High" |};
    {| entry_name := "Rule 2: Fever + Cough";
       entry_conditions := ["fever"; "cough"];
       entry_label := "Possible COVID-19";
       entry_confidence := "Medium" |}
  ] in
  Forall2 holds (rules (engine CovidExpertUI.__init__)) entries ∧
  ∃ window,
    show_rules (λ _, "") CovidExpertUI.__init__ = Ok window ∧
    content (txt window)
      = (flat_map lines entries ++
         [VStr "Default rule: Low likelihood of COVID-19 (Low)"])%list.
Proof.
  intros entries.
  assert (Forall2 holds (rules (engine CovidExpertUI.__init__)) entries) as Hall.
  { change (Forall2 holds [rule_1; rule_2] entries). subst entries.
    constructor; [|constructor; [|constructor]];
      (split_and!; [reflexivity | reflexivity |]);
      eexists; split_and!; reflexivity. }
  split; [done|]. eexists. split.
  - exact (show_rules_lines (λ _, "") CovidExpertUI.__init__ entries
             "Low likelihood of COVID-19" "Low" Hall eq_refl eq_refl).
  - reflexivity.
Defined.

Lemma run_diagnosis_shows_conclusion_witness :
  let boxes : gmap string bool :=
    <["cough" := true]> (<["fever" := true]>
      (symptoms_vars CovidExpertUI.__init__)) in
  let ui :=
    set_advice_text (set_symptoms_vars CovidExpertUI.__init__ boxes)
      {| content := [VStr "old"; VStr "older"]; state := NORMAL |} in
  ∃ ui' events advice,
    run_diagnosis (λ _, "") ui = Ok (ui', events) ∧
    advice_text ui' = {| content := [advice]; state := DISABLED |}.
Proof.
  intros boxes ui.
  destruct (run_diagnosis_init (λ _, "") ui eq_refl)
    as (? & ? & ? & ui' & _ & _ & Hrun).
  destruct (run_diagnosis_shows_conclusion (λ _, "") ui ui' _ Hrun)
    as (rule & c & advice & _ & _ & _ & _ & Hadvice & _).
  exists ui'. eexists. exists advice. split; [exact Hrun | exact Hadvice].
Defined.

Lemma run_diagnosis_display_witness :
  let boxes : gmap string bool :=
    <["cough" := true]> (<["fever" := true]>
      (symptoms_vars CovidExpertUI.__init__)) in
  let ui := set_symptoms_vars CovidExpertUI.__init__ boxes in
  engine ui = SimpleCovidExpert.__init__ ∧
  ∃ ui' events,
    run_diagnosis (λ _, "") ui = Ok (ui', events) ∧
    display ui' = display_rule_2.
Proof.
  intros boxes ui. split; [reflexivity|].
  destruct (run_diagnosis_display (λ _, "") ui eq_refl)
    as (ui' & events & Hrun & _ & Hd & _).
  exists ui', events. split; [done|]. apply Hd.
  - apply elem_of_checked. reflexivity.
  - apply elem_of_checked. reflexivity.
  - intros H%elem_of_checked. vm_compute in H. discriminate H.
Defined.

Lemma reachable_display_witness :
  ∃ ui,
    MainLoop.reachable (λ _, "") ui ∧
    symptoms_vars ui !! "fever" = Some true ∧
    (display ui = display_startup ∨ display ui = display_rule_1 ∨
     display ui = display_rule_2 ∨ display ui = display_default).
Proof.
  set (ui1 := set_symptoms_vars CovidExpertUI.__init__
                (<["fever" := negb false]>
                   (symptoms_vars CovidExpertUI.__init__))).
  assert (MainLoop.reachable (λ _, "") ui1) as Hreach1.
  { eapply MainLoop.reachable_step; [apply MainLoop.reachable_init|].
    by apply MainLoop.step_toggle. }
  destruct (run_diagnosis_init (λ _, "") ui1 eq_refl)
    as (? & ? & ? & ui2 & _ & _ & Hrun).
  assert (MainLoop.reachable (λ _, "") ui2) as Hreach2.
  { eapply MainLoop.reachable_step; [exact Hreach1|].
    eapply MainLoop.step_diagnose, Hrun. }
  exists ui2. split; [done|]. split.
  - apply run_diagnosis_frame in Hrun as [_ ->]. reflexivity.
  - exact (proj2 (proj2 (reachable_display (λ _, "") ui2 Hreach2))).
Defined.

Lemma reset_restores_startup_witness :
  ∃ ui,
    MainLoop.reachable (λ _, "") ui ∧
    symptoms_vars ui !! "fever" = Some true ∧
    reset ui = CovidExpertUI.__init__.
Proof.
  set (ui1 := set_symptoms_vars CovidExpertUI.__init__
                (<["fever" := negb false]>
                   (symptoms_vars CovidExpertUI.__init__))).
  assert (MainLoop.reachable (λ _, "") ui1) as Hreach1.
  { eapply MainLoop.reachable_step; [apply MainLoop.reachable_init|].
    by apply MainLoop.step_toggle. }
  destruct (run_diagnosis_init (λ _, "") ui1 eq_refl)
    as (? & ? & ? & ui2 & _ & _ & Hrun).
  assert (MainLoop.reachable (λ _, "") ui2) as Hreach2.
  { eapply MainLoop.reachable_step; [exact Hreach1|].
    eapply MainLoop.step_diagnose, Hrun. }
  exists ui2. split; [done|]. split.
  - apply run_diagnosis_frame in Hrun as [_ ->]. reflexivity.
  - exact (reset_restores_startup (λ _, "") ui2 Hreach2).
Defined.

Lemma diagnosis_after_reset_witness :
  let boxes : gmap string bool :=
    <["recent_exposure" := true]> (<["fever" := true]>
      (symptoms_vars CovidExpertUI.__init__)) in
  let ui := set_symptoms_vars CovidExpertUI.__init__ boxes in
  valid_store (engine ui) = true ∧
  ∃ ui', run_diagnosis (λ _, "") (reset ui) = Ok (ui', []) ∧
         explain_var ui' = VStr "Default rule applied.".
Proof.
  intros boxes ui. split; [reflexivity|].
  destruct (diagnosis_after_reset (λ _, "") ui eq_refl)
    as (ui' & Hrun & _ & _ & Hexplain).
  exists ui'. split; [exact Hrun | exact Hexplain].
Defined.

Lemma run_diagnosis_twice_witness :
  let boxes : gmap string bool :=
    <["recent_exposure" := true]> (<["cough" := true]> (<["fever" := true]>
      (symptoms_vars CovidExpertUI.__init__))) in
  let ui := set_symptoms_vars CovidExpertUI.__init__ boxes in
  ∃ ui' events,
    run_diagnosis (λ _, "") ui = Ok (ui', events) ∧
    run_diagnosis (λ _, "") ui' = Ok (ui', events).
Proof.
  intros boxes ui.
  destruct (run_diagnosis_init (λ _, "") ui eq_refl)
    as (? & ? & ? & ui' & _ & _ & Hrun).
  exists ui'. eexists. split; [exact Hrun|].
  exact (run_diagnosis_twice (λ _, "") ui ui' _ Hrun).
Defined.
